(** * arc-monitor: the poll / compare / notify loop

    A shallow embedding of [cmd/arcmon/main.go] (the two-request
    variant: GET for the checksum, HEAD for the timestamp) and of the
    single-request variant of [Tick] and [GetChecksum], followed by the
    properties of the loop, of the checksum parser, of the notifier and
    of the state file.

    Go strings are byte strings: they are modelled by [string], whose
    characters are bytes.  Functions returning [(T, error)] return a
    [result T]. *)

From Stdlib Require Import String Ascii List ZArith Lia Bool DecimalString.
From ExtLib Require Import Structures.Monad Structures.MonadState
  Data.Monads.StateMonad.
Import ListNotations.
Import MonadNotation.
Local Open Scope list_scope.
Local Open Scope string_scope.
Local Open Scope monad_scope.

(** ** Go values *)

(** An [error] value, observed through its [Error()] text. *)
Record error : Type := errors_New { Error : string }.

Inductive result (A : Type) : Type :=
| Ok (a : A)
| Err (e : error).
Arguments Ok {A} a.
Arguments Err {A} e.

Definition is_err {A} (r : result A) : bool :=
  match r with Ok _ => false | Err _ => true end.

(** ** The [strings] package *)

Module strings.

(** [strings.Split(s, sep)] for a one-byte separator, which is how the
    program calls it: the pieces of [s] between consecutive
    occurrences of [sep]; a string without [sep] (the empty string
    too) is its own single piece. *)
Fixpoint Split (s : string) (sep : ascii) : list string :=
  match s with
  | EmptyString => [EmptyString]
  | String c rest =>
      if Ascii.eqb c sep then EmptyString :: Split rest sep
      else match Split rest sep with
           | piece :: pieces => String c piece :: pieces
           | [] => [String c EmptyString]
           end
  end.

(** [strings.Join(elems, sep)], used to state what [Split] computes. *)
Fixpoint Join (elems : list string) (sep : string) : string :=
  match elems with
  | [] => EmptyString
  | [e] => e
  | e :: rest => e ++ sep ++ Join rest sep
  end.

(** [strings.Count(s, sep)] for a one-byte [sep]. *)
Fixpoint Count (s : string) (sep : ascii) : nat :=
  match s with
  | EmptyString => 0
  | String c rest => (if Ascii.eqb c sep then 1 else 0) + Count rest sep
  end.

(** The part of [s] before the first [sep] (all of [s] without one). *)
Fixpoint before (s : string) (sep : ascii) : string :=
  match s with
  | EmptyString => EmptyString
  | String c rest =>
      if Ascii.eqb c sep then EmptyString else String c (before rest sep)
  end.

(** ASCII white space, as [strings.Fields] tests it. *)
Definition isSpace (c : ascii) : bool :=
  let n := nat_of_ascii c in
  Nat.eqb n 32 || Nat.eqb n 9 || Nat.eqb n 10 || Nat.eqb n 11
  || Nat.eqb n 12 || Nat.eqb n 13.

(** The white-space-delimited tokens of a text, in the words of the
    specification ("whitespace-delimited text whose first token is the
    checksum"): maximal runs of non-space bytes, as [strings.Fields]
    returns them.  [open] tells that the byte before belonged to a
    token. *)
Fixpoint tokens_from (open : bool) (s : string) : list string :=
  match s with
  | EmptyString => if open then [EmptyString] else []
  | String c rest =>
      if isSpace c then
        if open then EmptyString :: tokens_from false rest
        else tokens_from false rest
      else match tokens_from true rest with
           | tok :: toks => String c tok :: toks
           | [] => [String c EmptyString]
           end
  end.

Definition Fields (s : string) : list string := tokens_from false s.

(** [strings.HasPrefix] and [strings.Contains]. *)
Fixpoint HasPrefix (s prefix : string) : bool :=
  match prefix, s with
  | EmptyString, _ => true
  | String a prefix', String b s' => Ascii.eqb a b && HasPrefix s' prefix'
  | String _ _, EmptyString => false
  end.

Fixpoint Contains (s substr : string) : bool :=
  HasPrefix s substr
  || match s with
     | EmptyString => false
     | String _ s' => Contains s' substr
     end.

End strings.

(** ** The [fmt] package, as far as the program uses it *)

Module fmt.

(** Operands of a formatting call.  An [error] operand is printed by
    [%v] as its [Error()] text and is passed as that string. *)
Inductive operand : Type :=
| str (s : string)
| int (z : Z).

Definition decimal (z : Z) : string := NilZero.string_of_int (Z.to_int z).

(** One verb applied to one operand.  [%s], [%d] and [%v] are the
    verbs of the program; a verb that does not fit its operand prints
    as [%!verb(type=value)]. *)
Definition verb (v : ascii) (a : operand) : string :=
  match a with
  | str s =>
      if Ascii.eqb v "s" || Ascii.eqb v "v" then s
      else "%!" ++ String v ("(string=" ++ s ++ ")")
  | int z =>
      if Ascii.eqb v "d" || Ascii.eqb v "v" then decimal z
      else "%!" ++ String v ("(int=" ++ decimal z ++ ")")
  end.

(** [fmt.Sprintf] for formats whose directives are a bare [%] and one
    verb byte: operands are consumed left to right, [%%] prints a
    percent sign, a verb without operand prints [%!verb(MISSING)].
    (Operands left over at the end, which [fmt] reports as [EXTRA],
    do not occur in the program and are dropped.) *)
Fixpoint Sprintf (format : string) (a : list operand) : string :=
  match format with
  | EmptyString => EmptyString
  | String c rest =>
      if Ascii.eqb c "%" then
        match rest with
        | EmptyString => "%!(NOVERB)"
        | String v rest' =>
            if Ascii.eqb v "%" then String "%" (Sprintf rest' a)
            else match a with
                 | x :: a' => verb v x ++ Sprintf rest' a'
                 | [] => "%!" ++ String v ("(MISSING)" ++ Sprintf rest' [])
                 end
        end
      else String c (Sprintf rest a)
  end.

Definition Errorf (format : string) (a : list operand) : error :=
  errors_New (Sprintf format a).

End fmt.

(** ** What the program takes from outside the repository

    [time.Time] with [time.Parse] and [Time.String], [url.Parse] (through
    which [http.NewRequestWithContext] can fail) and the YAML encoding of
    a record are library code: the development is parametric in them. *)

Class Platform : Type := {
  Time : Type;
  time_Parse : string -> string -> result Time;   (* layout, value *)
  Time_String : Time -> string;
  url_Parse : string -> result string;
  yaml_Marshal : Time -> string -> string          (* timestamp, check_sum *)
}.

Module time.
Definition RFC1123 : string := "Mon, 02 Jan 2006 15:04:05 MST".
End time.

(** ** The [net/http] values the program touches *)

Definition Header : Type := list (string * list string).

Fixpoint Header_Get (h : Header) (key : string) : string :=
  match h with
  | [] => ""
  | (k, vs) :: h' =>
      if String.eqb k key then hd "" vs else Header_Get h' key
  end.

Definition Header_Set (h : Header) (key value : string) : Header :=
  (key, [value]) :: filter (fun kv => negb (String.eqb (fst kv) key)) h.

Record Request : Type := {
  Method : string;
  URL : string;
  ReqHeader : Header;
  ReqBody : option string
}.

(** A response as the program reads it: [Body] is what [io.ReadAll]
    returns on [resp.Body]. *)
Record Response : Type := {
  StatusCode : Z;
  RespHeader : Header;
  Body : result string
}.

Section Program.

Context {P : Platform}.

(** ** State and effects *)

Record ArcDPSVersion : Type := {
  Timestamp : Time;
  CheckSum : string
}.

Inductive level : Type := Info | Error_.

(** What a run leaves behind, in order: round trips of the HTTP client,
    log lines, and entries of [SendWebHook] with its two arguments. *)
Inductive event : Type :=
| RoundTrip (req : Request)
| Logged (l : level) (msg : string)
| Notifying (checksum time_ : string).

(** The record [*ArcDPSVersion] that [Server.arcdps] points to, and the
    history of the run. *)
Record World : Type := {
  arcdps : ArcDPSVersion;
  trace : list event
}.

Definition M : Type -> Type := state World.

(** [http] is what the network answers to a request of [s.http.Do],
    given all that happened before; a transport failure, a timeout or a
    cancelled context is an [Err]. *)
Record Server : Type := {
  http : list event -> Request -> result Response;
  webhookURL : string
}.

Definition emit (e : event) : M unit :=
  w <- get ;;
  put {| arcdps := arcdps w; trace := (trace w ++ [e])%list |}.

Definition set_CheckSum (c : string) : M unit :=
  w <- get ;;
  put {| arcdps := {| Timestamp := Timestamp (arcdps w); CheckSum := c |};
         trace := trace w |}.

Definition set_Timestamp (t : Time) : M unit :=
  w <- get ;;
  put {| arcdps := {| Timestamp := t; CheckSum := CheckSum (arcdps w) |};
         trace := trace w |}.

Definition get_CheckSum : M string :=
  w <- get ;; ret (CheckSum (arcdps w)).

Definition logrus_Infof (format : string) (a : list fmt.operand) : M unit :=
  emit (Logged Info (fmt.Sprintf format a)).

Definition logrus_Errorf (format : string) (a : list fmt.operand) : M unit :=
  emit (Logged Error_ (fmt.Sprintf format a)).

Definition NewRequestWithContext (method url : string) (body : option string)
  : result Request :=
  match url_Parse url with
  | Err e => Err e
  | Ok u => Ok {| Method := method; URL := u; ReqHeader := []; ReqBody := body |}
  end.

Definition Do (s : Server) (req : Request) : M (result Response) :=
  w <- get ;;
  emit (RoundTrip req) ;;
  ret (http s (trace w) req).

(** ** Constants *)

Definition ArcDpsURL : string := "https://www.deltaconnected.com/arcdps/x64/".
Definition ArcDPSCheckSumURL : string := ArcDpsURL ++ "d3d9.dll.md5sum".
Definition ArcDPSDLLURL : string := ArcDpsURL ++ "d3d9.dll".

(** [DefaultTickDuration.String()] for [10 * time.Minute]. *)
Definition DefaultTickDuration_String : string := "10m0s".

(** Writes the double quote for every single quote of a text (the
    template below has no single quote of its own). *)
Fixpoint quoted (s : string) : string :=
  match s with
  | EmptyString => EmptyString
  | String c rest =>
      String (if Ascii.eqb c "'" then ascii_of_nat 34 else c) (quoted rest)
  end.

Definition PayloadJSON : string := Eval vm_compute in quoted "
{
  'embeds': [
    {
      'title': 'ArcDPS has updated!',
      'color': 12124160,
      'fields': [
        {
          'name': 'Checksum',
          'value': '%s',
          'inline': true
        },
        {
          'name': 'Timestamp Version',
          'value': '%s',
          'inline': true
        },
        {
          'name': 'Direct Download Link',
          'value': 'https://www.deltaconnected.com/arcdps/x64/d3d9.dll'
        }
      ],
      'author': {
        'name': 'ArcDPS Monitor',
        'icon_url': 'https://wiki.guildwars2.com/images/0/03/Specter_icon_(highres).png'
      },
      'footer': {
        'text': 'This bot checks every %s'
      }
    }
  ]
}".

(** ** Remote Checker *)

Definition GetChecksum (s : Server) : M (result string) :=
  match NewRequestWithContext "GET" ArcDPSCheckSumURL None with
  | Err err => ret (Err err)
  | Ok req =>
      r <- Do s req ;;
      match r with
      | Err err => ret (Err err)
      | Ok resp =>
          match Body resp with
          | Err err => ret (Err err)
          | Ok body =>
              if (299 <? StatusCode resp)%Z then
                ret (Err (fmt.Errorf "bad response from delta: (%s)" [fmt.str body]))
              else
                let checkSumSplit := strings.Split body " " in
                if (length checkSumSplit <? 2)%nat then
                  ret (Err (fmt.Errorf "incorrect size of checksum split" []))
                else ret (Ok (nth 0 checkSumSplit ""))
          end
      end
  end.

Definition GetVersion (s : Server) : M (result Time) :=
  match NewRequestWithContext "HEAD" ArcDPSDLLURL None with
  | Err err => ret (Err err)
  | Ok req =>
      r <- Do s req ;;
      match r with
      | Err err => ret (Err err)
      | Ok resp =>
          if (299 <? StatusCode resp)%Z then
            match Body resp with
            | Err err => ret (Err err)
            | Ok body =>
                ret (Err (fmt.Errorf "bad response from delta: (%s)" [fmt.str body]))
            end
          else
            match time_Parse time.RFC1123 (Header_Get (RespHeader resp) "Last-Modified") with
            | Err err =>
                ret (Err (fmt.Errorf "unable to parse time: (%v)" [fmt.str (Error err)]))
            | Ok lastModified => ret (Ok lastModified)
            end
      end
  end.

(** ** Notifier *)

(** The text that [SendWebHook] formats into its [payload] buffer. *)
Definition webhook_payload (checksum time_ : string) : string :=
  fmt.Sprintf PayloadJSON
    [fmt.str checksum; fmt.str time_; fmt.str DefaultTickDuration_String].

Definition SendWebHook (s : Server) (checksum time_ : string) : M (option error) :=
  emit (Notifying checksum time_) ;;
  let payload := webhook_payload checksum time_ in
  match NewRequestWithContext "POST" (webhookURL s) (Some payload) with
  | Err err => ret (Some err)
  | Ok req =>
      let req := {| Method := Method req; URL := URL req;
                    ReqHeader := Header_Set (ReqHeader req) "Content-Type" "application/json";
                    ReqBody := ReqBody req |} in
      r <- Do s req ;;
      match r with
      | Err err => ret (Some err)
      | Ok resp =>
          if (299 <? StatusCode resp)%Z then
            match Body resp with
            | Err err => ret (Some err)
            | Ok body =>
                ret (Some (fmt.Errorf "bad response from Discord: %d (%s)"
                             [fmt.int (StatusCode resp); fmt.str body]))
            end
          else ret None
      end
  end.

(** ** Poller *)

(** The body of the [case <-ticker.C] branch of [Tick]. *)
Definition tick (s : Server) : M unit :=
  r <- GetChecksum s ;;
  match r with
  | Err err => logrus_Errorf "Failed getting checksum: (%v)" [fmt.str (Error err)]
  | Ok check =>
      r <- GetVersion s ;;
      match r with
      | Err err => logrus_Errorf "Failed getting version: (%v)" [fmt.str (Error err)]
      | Ok version =>
          cur <- get_CheckSum ;;
          if String.eqb cur "" then
            logrus_Infof "Setting initial version" [] ;;
            set_CheckSum check ;;
            set_Timestamp version
          else
            cur <- get_CheckSum ;;
            if negb (String.eqb cur check) then
              e <- SendWebHook s (fmt.Sprintf "`%s`" [fmt.str check])
                     (fmt.Sprintf "`%s`" [fmt.str (Time_String version)]) ;;
              match e with
              | Some err =>
                  logrus_Errorf "unable to send webhook: (%v)
" [fmt.str (Error err)]
              | None => ret tt
              end ;;
              set_CheckSum check ;;
              set_Timestamp version
            else ret tt
      end
  end.

(** What [select] picks at one turn of the loop. *)
Inductive selected : Type := ticker_C | ctx_Done.

Fixpoint loop (s : Server) (turns : list selected) : M unit :=
  match turns with
  | [] => ret tt
  | ticker_C :: rest => tick s ;; loop s rest
  | ctx_Done :: _ => ret tt
  end.

Definition Tick (s : Server) (turns : list selected) : M unit :=
  logrus_Infof "Starting Check Ticker" [] ;;
  loop s turns.

End Program.

(** ** The single-request variant

    In this variant of the program [GetChecksum] takes the timestamp from
    the [Last-Modified] header of the checksum response, and [Tick] has
    no [GetVersion] step.  [SendWebHook] is the same. *)

Module SingleRequest.
Section Variant.

Context {P : Platform}.

(** [Checksum]: used to compare local cache to remote. *)
Record Checksum : Type := {
  Checksum_ : string;
  LastModified : Time
}.

Definition GetChecksum (s : Server) : M (result Checksum) :=
  match NewRequestWithContext "GET" ArcDPSCheckSumURL None with
  | Err err => ret (Err err)
  | Ok req =>
      r <- Do s req ;;
      match r with
      | Err err => ret (Err err)
      | Ok resp =>
          match Body resp with
          | Err err => ret (Err err)
          | Ok body =>
              if (299 <? StatusCode resp)%Z then
                ret (Err (fmt.Errorf "bad response from delta: (%s)" [fmt.str body]))
              else
                match time_Parse time.RFC1123 (Header_Get (RespHeader resp) "Last-Modified") with
                | Err err =>
                    ret (Err (fmt.Errorf "unable to parse time: (%v)" [fmt.str (Error err)]))
                | Ok lastModified =>
                    let checkSumSplit := strings.Split body " " in
                    if (length checkSumSplit <? 2)%nat then
                      ret (Err (fmt.Errorf "incorrect size of checksum split" []))
                    else
                      ret (Ok {| Checksum_ := nth 0 checkSumSplit "";
                                 LastModified := lastModified |})
                end
          end
      end
  end.

Definition tick (s : Server) : M unit :=
  r <- GetChecksum s ;;
  match r with
  | Err err => logrus_Errorf "Failed getting checksum: (%v)" [fmt.str (Error err)]
  | Ok check =>
      cur <- get_CheckSum ;;
      if String.eqb cur "" then
        logrus_Infof "Setting initial version" [] ;;
        set_CheckSum (Checksum_ check) ;;
        set_Timestamp (LastModified check)
      else
        cur <- get_CheckSum ;;
        if negb (String.eqb cur (Checksum_ check)) then
          e <- SendWebHook s (fmt.Sprintf "`%s`" [fmt.str (Checksum_ check)])
                 (fmt.Sprintf "`%s`" [fmt.str (Time_String (LastModified check))]) ;;
          match e with
          | Some err =>
              logrus_Errorf "unable to send webhook: (%v)
" [fmt.str (Error err)]
          | None => ret tt
          end ;;
          set_CheckSum (Checksum_ check) ;;
          set_Timestamp (LastModified check)
        else ret tt
  end.

Fixpoint loop (s : Server) (turns : list selected) : M unit :=
  match turns with
  | [] => ret tt
  | ticker_C :: rest => tick s ;; loop s rest
  | ctx_Done :: _ => ret tt
  end.

Definition Tick (s : Server) (turns : list selected) : M unit :=
  logrus_Infof "Starting Check Ticker" [] ;;
  loop s turns.

End Variant.
End SingleRequest.

(** ** State file

    [main] opens [arcdps.yml] with [O_RDWR|O_CREATE], decodes the record
    from it, and at shutdown rewinds the descriptor and encodes the
    record into it. *)

Module os.

Fixpoint take (n : nat) (s : string) : string :=
  match n, s with
  | S n', String c rest => String c (take n' rest)
  | _, _ => EmptyString
  end.

Fixpoint drop (n : nat) (s : string) : string :=
  match n, s with
  | S n', String _ rest => drop n' rest
  | _, _ => s
  end.

Fixpoint zeros (n : nat) : string :=
  match n with
  | O => EmptyString
  | S n' => String zero (zeros n')
  end.

(** An open file: the bytes on disk and the descriptor's offset. *)
Record File : Type := {
  contents : string;
  offset : nat
}.

(** [f.Seek(pos, 0)]: the offset relative to the origin of the file. *)
Definition Seek (f : File) (pos : nat) : File :=
  {| contents := contents f; offset := pos |}.

(** [f.Write(p)] on a descriptor opened without [O_APPEND]: the bytes
    of [p] replace those at the offset and the file grows when they
    pass its end (a gap before the offset reads as zero bytes); bytes
    after the written range stay. *)
Definition Write (f : File) (p : string) : File :=
  let len := String.length (contents f) in
  {| contents :=
       take (offset f) (contents f) ++ zeros (offset f - len) ++ p
       ++ drop (offset f + String.length p) (contents f);
     offset := offset f + String.length p |}.

End os.

Section StateFile.

Context {P : Platform}.

(** [yaml.NewEncoder(f).Encode(arcdps)]: one write of the document. *)
Definition Encode (f : os.File) (v : ArcDPSVersion) : os.File :=
  os.Write f (yaml_Marshal (Timestamp v) (CheckSum v)).

(** The last lines of [main]: rewind the descriptor, then encode. *)
Definition Save (f : os.File) (v : ArcDPSVersion) : os.File :=
  Encode (os.Seek f 0) v.

End StateFile.

(** ** Observations on a run *)

Section Observations.

Context {P : Platform}.

(** The entries of [SendWebHook] in a history, with their arguments. *)
Fixpoint notifications (t : list event) : list (string * string) :=
  match t with
  | [] => []
  | Notifying c tm :: t' => (c, tm) :: notifications t'
  | _ :: t' => notifications t'
  end.

(** The POST requests that went out. *)
Fixpoint posts (t : list event) : list Request :=
  match t with
  | [] => []
  | RoundTrip req :: t' =>
      if String.eqb (Method req) "POST" then req :: posts t' else posts t'
  | _ :: t' => posts t'
  end.

(** The events that [m] adds to the history of [w]. *)
Definition events {A} (m : M A) (w : World) : list event :=
  skipn (length (trace w)) (trace (execState m w)).

(** [sub] occurs in [s] ([strings.Contains] as a proposition). *)
Definition Contains (s sub : string) : Prop :=
  exists pre post, s = pre ++ sub ++ post.

(** The requests the three operations build once the URL has parsed to [u]. *)
Definition checksum_request (u : string) : Request :=
  {| Method := "GET"; URL := u; ReqHeader := []; ReqBody := None |}.

Definition version_request (u : string) : Request :=
  {| Method := "HEAD"; URL := u; ReqHeader := []; ReqBody := None |}.

Definition webhook_request (u checksum time_ : string) : Request :=
  {| Method := "POST"; URL := u;
     ReqHeader := [("Content-Type", ["application/json"])];
     ReqBody := Some (webhook_payload checksum time_) |}.

(** The part of [tick] that follows the two fetches. *)
Definition compare (s : Server) (check : string) (version : Time) : M unit :=
  cur <- get_CheckSum ;;
  if String.eqb cur "" then
    logrus_Infof "Setting initial version" [] ;;
    set_CheckSum check ;;
    set_Timestamp version
  else
    cur <- get_CheckSum ;;
    if negb (String.eqb cur check) then
      e <- SendWebHook s (fmt.Sprintf "`%s`" [fmt.str check])
             (fmt.Sprintf "`%s`" [fmt.str (Time_String version)]) ;;
      match e with
      | Some err =>
          logrus_Errorf "unable to send webhook: (%v)
" [fmt.str (Error err)]
      | None => ret tt
      end ;;
      set_CheckSum check ;;
      set_Timestamp version
    else ret tt.

(** Events that are neither an entry of [SendWebHook] nor a POST. *)
Definition log_only (evs : list event) : Prop :=
  notifications evs = [] /\ posts evs = [].

(** [w'] continues [w] with the same record and the events [evs]. *)
Definition extends (w w' : World) (evs : list event) : Prop :=
  arcdps w' = arcdps w /\ trace w' = (trace w ++ evs)%list.

(** What one call of [SendWebHook] adds to the history: its entry, and
    the POST when the webhook URL parses. *)
Definition hook_events (s : Server) (checksum time_ : string) : list event :=
  Notifying checksum time_ ::
  match url_Parse (webhookURL s) with
  | Ok u => [RoundTrip (webhook_request u checksum time_)]
  | Err _ => []
  end.

(** The arguments [tick] passes to [SendWebHook]. *)
Definition quoted_checksum (check : string) : string :=
  fmt.Sprintf "`%s`" [fmt.str check].

Definition quoted_version (version : Time) : string :=
  fmt.Sprintf "`%s`" [fmt.str (Time_String version)].

End Observations.

(** ** More observations *)

Section Requests.

Context {P : Platform}.

(** All the requests that went out, in order. *)
Fixpoint round_trips (t : list event) : list Request :=
  match t with
  | [] => []
  | RoundTrip req :: t' => req :: round_trips t'
  | _ :: t' => round_trips t'
  end.



End Requests.

(** ** [main]

    Start: the webhook variable is required, the state file is opened
    (created when absent) and decoded.  Then the loop runs until the
    signal, and the record is saved.  [main] saves as soon as it has
    cancelled the context; the model takes the signal while the loop
    waits in its [select], between two ticks. *)

Inductive decoded {P : Platform} : Type :=
| io_EOF
| decode_failed (e : error)
| document (v : ArcDPSVersion).

(** [yaml.NewDecoder(f).Decode] and the zero [time.Time] are library
    code as well. *)
Class Decoder {P : Platform} : Type := {
  Time_zero : Time;
  yaml_Decode : string -> decoded
}.

Section Main.

Context {P : Platform} {D : Decoder}.

(** How the process ends: [logrus.Fatalf] (exit status 1 after the
    line), a nil dereference, or the return of [main]. *)
Inductive outcome : Type :=
| Fatal (msg : string)
| Panic
| Exit0 (f : os.File) (w : World).

(** [arcdps := &ArcDPSVersion{}] decoded from the file, with the test
    [err != nil && err != io.EOF] of [main]. *)
Definition Decode (content : string) : result ArcDPSVersion :=
  match yaml_Decode content with
  | io_EOF => Ok {| Timestamp := Time_zero; CheckSum := "" |}
  | decode_failed err => Err err
  | document v => Ok v
  end.

Definition NewServer (getenv : string -> string)
  (net : list event -> Request -> result Response) : Server :=
  {| http := net; webhookURL := getenv "DISCORD_WEBHOOK" |}.

(** [opened] is what [os.OpenFile] with [O_RDWR|O_CREATE] answers: the
    content of [arcdps.yml] (empty when it was just created) or an
    error.  After an error whose text contains [no such], [main] goes on
    with a nil file and stops at [f.Name()].  The write of the document
    at shutdown is taken to succeed. *)
Definition main (getenv : string -> string) (opened : result string)
  (net : list event -> Request -> result Response) (turns : list selected)
  : outcome :=
  if String.eqb (getenv "DISCORD_WEBHOOK") "" then
    Fatal "missing DISCORD_WEBHOOK env variable"
  else
    match opened with
    | Err err =>
        if negb (strings.Contains (Error err) "no such") then
          Fatal (fmt.Sprintf "err opening tracking file: %v
" [fmt.str (Error err)])
        else Panic
    | Ok content =>
        let started := Logged Info (fmt.Sprintf "using: %s" [fmt.str "arcdps.yml"]) in
        match Decode content with
        | Err err =>
            Fatal (fmt.Sprintf "unable to decode arcdps.yml: %v" [fmt.str (Error err)])
        | Ok arcdps0 =>
            let f := {| os.contents := content; os.offset := String.length content |} in
            let s := NewServer getenv net in
            let w := execState (Tick s turns) {| arcdps := arcdps0; trace := [started] |} in
            let w := {| arcdps := arcdps w;
                        trace := (trace w ++ [Logged Info "shutting down"])%list |} in
            Exit0 (Save f (arcdps w)) w
        end
    end.

End Main.

(** ** A platform and servers to run examples on

    [demo] stands in for the libraries at the inputs of the examples: it
    parses the two HTTP dates below, prints them as [Time.String] does
    for a time in the zone [GMT], accepts every URL unchanged, and
    writes the record as [yaml.v2] writes a plain checksum. *)

Inductive demo_time : Type := zero_time | jan_2006 | nov_2009.

Definition demo_parse (layout value : string) : result demo_time :=
  if String.eqb value "Mon, 02 Jan 2006 15:04:05 GMT" then Ok jan_2006
  else if String.eqb value "Tue, 10 Nov 2009 23:00:00 GMT" then Ok nov_2009
  else Err (errors_New ("parsing time: cannot parse " ++ value ++ " as " ++ layout)).

Definition demo_string (t : demo_time) : string :=
  match t with
  | zero_time => "0001-01-01 00:00:00 +0000 UTC"
  | jan_2006 => "2006-01-02 15:04:05 +0000 GMT"
  | nov_2009 => "2009-11-10 23:00:00 +0000 GMT"
  end.

Definition demo_rfc3339 (t : demo_time) : string :=
  match t with
  | zero_time => "0001-01-01T00:00:00Z"
  | jan_2006 => "2006-01-02T15:04:05Z"
  | nov_2009 => "2009-11-10T23:00:00Z"
  end.

Definition demo_marshal (t : demo_time) (c : string) : string :=
  "timestamp: " ++ demo_rfc3339 t ++ String (ascii_of_nat 10)
    ("check_sum: " ++ c ++ String (ascii_of_nat 10) "").

#[local] Instance demo : Platform := {|
  Time := demo_time;
  time_Parse := demo_parse;
  Time_String := demo_string;
  url_Parse := fun u => Ok u;
  yaml_Marshal := demo_marshal
|}.

(** A network that answers the checksum GET with status [st] and [body],
    the HEAD with the given [Last-Modified] value, and the webhook POST
    with status [hook] and body [reply]. *)
Definition demo_http (st : Z) (body date : string) (hook : Z) (reply : string)
  (_ : list event) (req : Request) : result Response :=
  if String.eqb (Method req) "GET" then
    Ok {| StatusCode := st; RespHeader := [("Last-Modified", [date])]; Body := Ok body |}
  else if String.eqb (Method req) "HEAD" then
    Ok {| StatusCode := 200; RespHeader := [("Last-Modified", [date])]; Body := Ok "" |}
  else
    Ok {| StatusCode := hook; RespHeader := []; Body := Ok reply |}.

Definition demo_server (st : Z) (body date : string) (hook : Z) (reply : string)
  : Server :=
  {| http := demo_http st body date hook reply;
     webhookURL := "https://discord.example/api/webhooks/1/token" |}.

Definition demo_world (c : string) (t : demo_time) : World :=
  {| arcdps := {| Timestamp := t; CheckSum := c |}; trace := [] |}.

(** The scenarios of the examples. *)

Definition jan_2006_header : string := "Mon, 02 Jan 2006 15:04:05 GMT".

(** The record holds [abc123]. *)
Definition stored_abc123 : World := demo_world "abc123" nov_2009.

(** Nothing stored yet: the record of a first run. *)
Definition first_run : World := demo_world "" zero_time.

(** The server publishes [def456]; the webhook answers 500. *)
Definition publishes_def456 : Server :=
  demo_server 200 "def456 d3d9.dll" jan_2006_header 500 "webhook down".

(** The server publishes [abc123]; the webhook answers 204. *)
Definition publishes_abc123 : Server :=
  demo_server 200 "abc123  d3d9.dll" jan_2006_header 204 "".

(** The checksum resource answers 500. *)
Definition checksum_500 : Server :=
  demo_server 500 "Internal Server Error" jan_2006_header 204 "".

(** The checksum body starts with a space. *)
Definition leading_space : Server :=
  demo_server 200 " d3d9.dll" jan_2006_header 204 "".

(** The checksum body is one token followed by a space. *)
Definition trailing_space : Server :=
  demo_server 200 "abc123 " jan_2006_header 204 "".

(** The checksum and the file name are separated by a tab. *)
Definition tab_separated : string :=
  "abc123" ++ String (ascii_of_nat 9) "d3d9.dll".


(** A state file written for a 32-digit checksum, read to its end, and
    the shorter record held at shutdown. *)
Definition old_state : string := demo_marshal jan_2006 "0123456789abcdef0123456789abcdef".

Definition state_file : os.File :=
  {| os.contents := old_state; os.offset := String.length old_state |}.

Definition short_record : ArcDPSVersion :=
  {| Timestamp := nov_2009; CheckSum := "abc123" |}.

(** A decoder for the documents that [demo_marshal] writes: the two
    lines of a record with a known timestamp and a plain checksum; the
    empty file holds no document. *)
Fixpoint strip (prefix s : string) : option string :=
  match prefix, s with
  | EmptyString, _ => Some s
  | String a prefix', String b s' =>
      if Ascii.eqb a b then strip prefix' s' else None
  | String _ _, EmptyString => None
  end.

Definition demo_timestamp (s : string) : option demo_time :=
  if String.eqb s "0001-01-01T00:00:00Z" then Some zero_time
  else if String.eqb s "2006-01-02T15:04:05Z" then Some jan_2006
  else if String.eqb s "2009-11-10T23:00:00Z" then Some nov_2009
  else None.

Definition demo_decode (s : string) : @decoded demo :=
  let bad := decode_failed (errors_New "yaml: unmarshal errors") in
  if String.eqb s "" then io_EOF
  else
    match strip "timestamp: " s with
    | None => bad
    | Some s1 =>
        match demo_timestamp (os.take 20 s1),
              strip (String (ascii_of_nat 10) "check_sum: ") (os.drop 20 s1) with
        | Some t, Some s2 =>
            let c := strings.before s2 (ascii_of_nat 10) in
            if String.eqb s2 (c ++ String (ascii_of_nat 10) "") && negb (String.eqb c "")
            then document {| Timestamp := t; CheckSum := c |}
            else bad
        | _, _ => bad
        end
    end.

#[local] Instance demo_decoder : @Decoder demo := {|
  Time_zero := zero_time;
  yaml_Decode := demo_decode
|}.

(** The environment of a configured process, and an empty one. *)
Definition configured (name : string) : string :=
  if String.eqb name "DISCORD_WEBHOOK"
  then "https://discord.example/api/webhooks/1/token" else "".

Definition unconfigured (_ : string) : string := "".

(** The [Last-Modified] header is no HTTP date. *)
Definition unparsable_date : Server :=
  demo_server 200 "abc123  d3d9.dll" "yesterday" 204 "".

(** The state file as [os.OpenFile] has just created it. *)
Definition fresh_file : os.File := {| os.contents := ""; os.offset := 0 |}.

(** What the network of [publishes_abc123] answers. *)
Definition abc123_network : list event -> Request -> result Response :=
  http publishes_abc123.

(** * Properties *)

(** ** [strings.Split] *)

Section SplitFacts.

Import strings.

Lemma Split_not_nil s sep : Split s sep <> [].
Proof.
  destruct s as [|c rest]; cbn; [discriminate|].
  destruct (Ascii.eqb c sep); [discriminate|].
  destruct (Split rest sep); discriminate.
Qed.

Lemma Split_length s sep : length (Split s sep) = S (Count s sep).
Proof.
  induction s as [|c rest IH]; cbn; [reflexivity|].
  destruct (Ascii.eqb c sep); cbn.
  - now rewrite IH.
  - destruct (Split rest sep) as [|p ps] eqn:E; [now apply Split_not_nil in E|].
    cbn in *. exact IH.
Qed.

Lemma Split_first s sep d : nth 0 (Split s sep) d = before s sep.
Proof.
  induction s as [|c rest IH]; cbn; [reflexivity|].
  destruct (Ascii.eqb c sep); cbn; [reflexivity|].
  destruct (Split rest sep) as [|p ps] eqn:E; [now apply Split_not_nil in E|].
  cbn in *. now rewrite IH.
Qed.

(** The pieces joined by the separator give the text back, and no piece
    holds the separator: [Split] computes the split of [s] at every
    occurrence of [sep]. *)
Lemma Join_cons e p ps sep :
  Join (e :: p :: ps) sep = e ++ sep ++ Join (p :: ps) sep.
Proof. reflexivity. Qed.

Lemma Split_Join s sep : Join (Split s sep) (String sep "") = s.
Proof.
  induction s as [|c rest IH]; [reflexivity|].
  cbn [Split].
  destruct (Split rest sep) as [|p ps] eqn:E; [now apply Split_not_nil in E|].
  destruct (Ascii.eqb_spec c sep) as [->|ne].
  - rewrite Join_cons, IH. reflexivity.
  - destruct ps as [|q qs].
    + cbn in *. now rewrite IH.
    + rewrite Join_cons in *.
      change (String c (p ++ String sep "" ++ Join (q :: qs) (String sep ""))
              = String c rest).
      now rewrite IH.
Qed.

Lemma Split_pieces s sep : Forall (fun p => Count p sep = 0) (Split s sep).
Proof.
  induction s as [|c rest IH]; cbn.
  - constructor; [reflexivity|constructor].
  - destruct (Ascii.eqb c sep) eqn:E.
    + constructor; [reflexivity|exact IH].
    + destruct (Split rest sep) as [|p ps]; [repeat constructor; cbn; now rewrite E|].
      inversion IH; subst. constructor; [cbn; now rewrite E|assumption].
Qed.

Lemma before_prefix c sep rest :
  Count c sep = 0 -> before (c ++ String sep rest) sep = c.
Proof.
  induction c as [|a c IH]; cbn; intros H.
  - now rewrite Ascii.eqb_refl.
  - destruct (Ascii.eqb a sep); [discriminate|]. now rewrite IH.
Qed.

Lemma before_decompose s sep :
  Count s sep <> 0 ->
  exists rest, s = before s sep ++ String sep rest /\ Count (before s sep) sep = 0.
Proof.
  induction s as [|a s IH]; cbn; intros H; [congruence|].
  destruct (Ascii.eqb_spec a sep) as [->|ne].
  - exists s. split; reflexivity.
  - destruct (IH H) as [rest [E C]]. exists rest. cbn.
    destruct (Ascii.eqb_spec a sep) as [|_]; [contradiction|].
    split; [now rewrite <- E|exact C].
Qed.

Lemma Split_short s sep : (length (Split s sep) <? 2)%nat = true <-> Count s sep = 0.
Proof.
  rewrite Split_length, Nat.ltb_lt. lia.
Qed.

End SplitFacts.

(** ** Running the operations *)

Section Runs.

Context {P : Platform}.

Lemma events_extends {A} (m : M A) w evs :
  trace (execState m w) = (trace w ++ evs)%list -> events m w = evs.
Proof.
  unfold events. intros ->.
  rewrite skipn_app, skipn_all, Nat.sub_diag. reflexivity.
Qed.

Lemma notifications_app t1 t2 :
  notifications (t1 ++ t2) = (notifications t1 ++ notifications t2)%list.
Proof.
  induction t1 as [|e t1 IH]; cbn; [reflexivity|].
  destruct e; cbn; now rewrite IH.
Qed.

Lemma posts_app t1 t2 : posts (t1 ++ t2) = (posts t1 ++ posts t2)%list.
Proof.
  induction t1 as [|e t1 IH]; cbn; [reflexivity|].
  destruct e; cbn; try now rewrite IH.
  destruct (String.eqb (Method req) "POST"); cbn; now rewrite IH.
Qed.

Lemma extends_refl w : extends w w [].
Proof. split; [reflexivity|now rewrite app_nil_r]. Qed.

Lemma extends_trans w1 w2 w3 e1 e2 :
  extends w1 w2 e1 -> extends w2 w3 e2 -> extends w1 w3 (e1 ++ e2).
Proof.
  intros [A1 T1] [A2 T2]. split; [congruence|].
  now rewrite T2, T1, app_assoc.
Qed.

(** A fetch leaves the record alone and adds at most its own round
    trip, which is no POST. *)
Lemma GetChecksum_frame s w :
  exists evs, extends w (snd (runState (GetChecksum s) w)) evs /\ log_only evs.
Proof.
  unfold GetChecksum, NewRequestWithContext.
  destruct (url_Parse ArcDPSCheckSumURL) as [u|e]; cbn.
  - exists [RoundTrip (checksum_request u)]; split; [|split; reflexivity].
    destruct (http s (trace w) _) as [resp|e]; cbn; [|split; reflexivity].
    destruct (Body resp); cbn; [|split; reflexivity].
    destruct (299 <? StatusCode resp)%Z; cbn; [split; reflexivity|].
    destruct (length (strings.Split a " ")) as [|[|n]]; cbn; split; reflexivity.
  - exists []. split; [apply extends_refl|split; reflexivity].
Qed.

Lemma GetVersion_frame s w :
  exists evs, extends w (snd (runState (GetVersion s) w)) evs /\ log_only evs.
Proof.
  unfold GetVersion, NewRequestWithContext.
  destruct (url_Parse ArcDPSDLLURL) as [u|e]; cbn.
  - exists [RoundTrip (version_request u)]; split; [|split; reflexivity].
    destruct (http s (trace w) _) as [resp|e]; cbn; [|split; reflexivity].
    destruct (299 <? StatusCode resp)%Z; cbn.
    + destruct (Body resp); cbn; split; reflexivity.
    + destruct (time_Parse _ _); cbn; split; reflexivity.
  - exists []. split; [apply extends_refl|split; reflexivity].
Qed.

End Runs.

Section TickFacts.

Context {P : Platform}.

(** The run of [SendWebHook], by cases on the URL and on the answer. *)
Lemma SendWebHook_run s w c t :
  runState (SendWebHook s c t) w =
  (match url_Parse (webhookURL s) with
   | Err e => Some e
   | Ok u =>
       match http s (trace w ++ [Notifying c t])%list (webhook_request u c t) with
       | Err e => Some e
       | Ok resp =>
           if (299 <? StatusCode resp)%Z then
             match Body resp with
             | Err err => Some err
             | Ok body =>
                 Some (fmt.Errorf "bad response from Discord: %d (%s)"
                         [fmt.int (StatusCode resp); fmt.str body])
             end
           else None
       end
   end,
   {| arcdps := arcdps w; trace := (trace w ++ hook_events s c t)%list |}).
Proof.
  unfold SendWebHook, hook_events, NewRequestWithContext, webhook_request.
  generalize (webhook_payload c t). intros payload.
  destruct (url_Parse (webhookURL s)) as [u|e]; cbn -[fmt.Errorf]; [|reflexivity].
  destruct (http s _ _) as [resp|e]; cbn -[fmt.Errorf]; [|now rewrite <- app_assoc].
  destruct (299 <? StatusCode resp)%Z; cbn -[fmt.Errorf]; [|now rewrite <- app_assoc].
  destruct (Body resp); cbn -[fmt.Errorf]; now rewrite <- app_assoc.
Qed.

Lemma SendWebHook_extends s w c t :
  extends w (snd (runState (SendWebHook s c t) w)) (hook_events s c t).
Proof.
  rewrite SendWebHook_run. cbn [snd]. split; reflexivity.
Qed.

Lemma tick_fetched s w c w1 v w2 :
  runState (GetChecksum s) w = (Ok c, w1) ->
  runState (GetVersion s) w1 = (Ok v, w2) ->
  runState (tick s) w = runState (compare s c v) w2.
Proof.
  intros H1 H2. unfold tick. cbn. rewrite H1. cbn. rewrite H2. reflexivity.
Qed.

Lemma tick_no_checksum s w e w1 :
  runState (GetChecksum s) w = (Err e, w1) ->
  execState (tick s) w =
  {| arcdps := arcdps w1;
     trace := (trace w1 ++
       [Logged Error_ (fmt.Sprintf "Failed getting checksum: (%v)" [fmt.str (Error e)])])%list |}.
Proof.
  intros H1. unfold tick, execState. cbn. rewrite H1. reflexivity.
Qed.

Lemma tick_no_version s w c w1 e w2 :
  runState (GetChecksum s) w = (Ok c, w1) ->
  runState (GetVersion s) w1 = (Err e, w2) ->
  execState (tick s) w =
  {| arcdps := arcdps w2;
     trace := (trace w2 ++
       [Logged Error_ (fmt.Sprintf "Failed getting version: (%v)" [fmt.str (Error e)])])%list |}.
Proof.
  intros H1 H2. unfold tick, execState. cbn. rewrite H1. cbn. rewrite H2. reflexivity.
Qed.

Lemma compare_first s c v w :
  CheckSum (arcdps w) = "" ->
  execState (compare s c v) w =
  {| arcdps := {| Timestamp := v; CheckSum := c |};
     trace := (trace w ++ [Logged Info "Setting initial version"])%list |}.
Proof.
  intros H. unfold compare, execState. cbn. rewrite H. reflexivity.
Qed.

Lemma compare_same s c v w :
  CheckSum (arcdps w) <> "" -> CheckSum (arcdps w) = c ->
  execState (compare s c v) w = w.
Proof.
  intros H E. unfold compare, execState. cbn.
  destruct (String.eqb_spec (CheckSum (arcdps w)) "") as [|_]; [contradiction|].
  cbn. rewrite E, String.eqb_refl. reflexivity.
Qed.

Lemma compare_changed s c v w :
  CheckSum (arcdps w) <> "" -> CheckSum (arcdps w) <> c ->
  exists logs,
    arcdps (execState (compare s c v) w) = {| Timestamp := v; CheckSum := c |} /\
    trace (execState (compare s c v) w)
    = (trace w ++ hook_events s (quoted_checksum c) (quoted_version v) ++ logs)%list /\
    log_only logs.
Proof.
  intros H N. unfold compare, execState.
  fold (quoted_checksum c) (quoted_version v).
  cbn -[SendWebHook quoted_checksum quoted_version].
  destruct (String.eqb_spec (CheckSum (arcdps w)) "") as [|_]; [contradiction|].
  cbn -[SendWebHook quoted_checksum quoted_version].
  destruct (String.eqb_spec (CheckSum (arcdps w)) c) as [|_]; [contradiction|].
  cbn -[SendWebHook quoted_checksum quoted_version].
  pose proof (SendWebHook_extends s w (quoted_checksum c) (quoted_version v)) as [_ T].
  destruct (runState (SendWebHook s (quoted_checksum c) (quoted_version v)) w)
    as [[err|] w'] eqn:R; clear R; cbn [snd] in T;
    cbn -[quoted_checksum quoted_version].
  - eexists. split; [reflexivity|]. split.
    + rewrite T, <- app_assoc. reflexivity.
    + split; reflexivity.
  - exists []. split; [reflexivity|]. split; [|split; reflexivity].
    rewrite T. now rewrite app_nil_r.
Qed.

Lemma fetches_frame s w r1 w1 r2 w2 :
  runState (GetChecksum s) w = (r1, w1) ->
  runState (GetVersion s) w1 = (r2, w2) ->
  exists evs, extends w w2 evs /\ log_only evs.
Proof.
  intros H1 H2.
  destruct (GetChecksum_frame s w) as [e1 [X1 [N1 P1]]].
  destruct (GetVersion_frame s w1) as [e2 [X2 [N2 P2]]].
  rewrite H1 in X1. rewrite H2 in X2. cbn [snd] in *.
  exists (e1 ++ e2)%list. split; [eapply extends_trans; eassumption|].
  split; [rewrite notifications_app, N1, N2|rewrite posts_app, P1, P2]; reflexivity.
Qed.

Lemma notifications_hook s c t : notifications (hook_events s c t) = [(c, t)].
Proof. unfold hook_events. destruct (url_Parse (webhookURL s)); reflexivity. Qed.

Lemma posts_hook s c t :
  posts (hook_events s c t) =
  match url_Parse (webhookURL s) with
  | Ok u => [webhook_request u c t]
  | Err _ => []
  end.
Proof. unfold hook_events. destruct (url_Parse (webhookURL s)); reflexivity. Qed.

(** [compare] by cases on the record it finds. *)
Lemma compare_cases s c v w :
  exists evs,
    trace (execState (compare s c v) w) = (trace w ++ evs)%list /\
    ((CheckSum (arcdps w) = "" /\ log_only evs /\
      arcdps (execState (compare s c v) w) = {| Timestamp := v; CheckSum := c |})
     \/ (CheckSum (arcdps w) <> "" /\ CheckSum (arcdps w) = c /\ evs = [] /\
         execState (compare s c v) w = w)
     \/ (CheckSum (arcdps w) <> "" /\ CheckSum (arcdps w) <> c /\
         notifications evs = [(quoted_checksum c, quoted_version v)] /\
         posts evs = posts (hook_events s (quoted_checksum c) (quoted_version v)) /\
         arcdps (execState (compare s c v) w) = {| Timestamp := v; CheckSum := c |})).
Proof.
  destruct (String.eqb_spec (CheckSum (arcdps w)) "") as [E|NE].
  - rewrite (compare_first s c v w E). eexists. split; [reflexivity|].
    left. repeat split; assumption.
  - destruct (String.eqb_spec (CheckSum (arcdps w)) c) as [E|NC].
    + rewrite (compare_same s c v w NE E). exists []. split; [now rewrite app_nil_r|].
      right; left. repeat split; assumption.
    + destruct (compare_changed s c v w NE NC) as [logs [A [T [LN LP]]]].
      eexists. split; [exact T|]. right; right.
      split; [assumption|]. split; [assumption|].
      rewrite notifications_app, posts_app, LN, LP, notifications_hook, !app_nil_r.
      repeat split; assumption.
Qed.

(** ** Texts *)

Lemma Contains_refl s : Contains s s.
Proof. exists "", "". cbn. induction s; cbn; congruence. Qed.

Lemma append_assoc (a b c : string) : (a ++ b) ++ c = a ++ b ++ c.
Proof. induction a; cbn; congruence. Qed.

Lemma Contains_trans a b c : Contains a b -> Contains b c -> Contains a c.
Proof.
  intros [p1 [q1 ->]] [p2 [q2 ->]].
  exists (p1 ++ p2), (q2 ++ q1). now rewrite !append_assoc.
Qed.

Lemma Sprintf_literal pre rest a :
  strings.Count pre "%" = 0 ->
  fmt.Sprintf (pre ++ rest) a = pre ++ fmt.Sprintf rest a.
Proof.
  induction pre as [|c pre IH]; cbn [append]; intros H; [reflexivity|].
  cbn [strings.Count] in H. cbn [fmt.Sprintf].
  destruct (Ascii.eqb c "%"); [discriminate|]. now rewrite IH.
Qed.

Lemma quoted_checksum_Contains c : Contains (quoted_checksum c) c.
Proof. exists "`", "`". reflexivity. Qed.

Lemma Sprintf_first pre rest x a :
  strings.Count pre "%" = 0 ->
  fmt.Sprintf (pre ++ String "%" (String "s" rest)) (fmt.str x :: a)
  = pre ++ x ++ fmt.Sprintf rest a.
Proof. intros H. rewrite Sprintf_literal by exact H. reflexivity. Qed.

(** The template up to its first directive, and what follows it. *)
Lemma PayloadJSON_split :
  PayloadJSON =
  strings.before PayloadJSON "%" ++
  String "%" (String "s"
    (os.drop (String.length (strings.before PayloadJSON "%") + 2) PayloadJSON)).
Proof. vm_compute. reflexivity. Qed.

(** The payload carries the first operand of the template. *)
Lemma webhook_payload_Contains c t : Contains (webhook_payload c t) c.
Proof.
  unfold webhook_payload. rewrite PayloadJSON_split at 1.
  rewrite Sprintf_first by (vm_compute; reflexivity).
  eexists. eexists. reflexivity.
Qed.

End TickFacts.

(** ** The poller *)

Section Poller.

Context {P : Platform}.

Lemma tick_events_fetched s w c w1 v w2 :
  runState (GetChecksum s) w = (Ok c, w1) ->
  runState (GetVersion s) w1 = (Ok v, w2) ->
  exists fetch, log_only fetch /\ arcdps w2 = arcdps w /\
    execState (tick s) w = execState (compare s c v) w2 /\
    forall evs, trace (execState (compare s c v) w2) = (trace w2 ++ evs)%list ->
                events (tick s) w = (fetch ++ evs)%list.
Proof.
  intros H1 H2.
  destruct (fetches_frame s w _ _ _ _ H1 H2) as [fetch [[A T] L]].
  exists fetch. split; [exact L|]. split; [exact A|].
  assert (E : execState (tick s) w = execState (compare s c v) w2)
    by (unfold execState; now rewrite (tick_fetched s w c w1 v w2 H1 H2)).
  split; [exact E|].
  intros evs Tc. apply events_extends. now rewrite E, Tc, T, app_assoc.
Qed.

(** C1.  On a tick whose two fetches succeed with a checksum [c] that
    differs from the record's non-empty checksum, [SendWebHook] is
    entered exactly once, with the back-quoted [c] as its checksum
    argument; at most one POST goes out (exactly one when the webhook
    URL parses) and its body contains [c]; and the record becomes the
    fetched checksum and timestamp.  Nothing is assumed about the answer
    to the POST, so the record is updated as well when the notification
    fails. *)
Theorem tick_changed_notifies_and_adopts s w c w1 v w2 :
  runState (GetChecksum s) w = (Ok c, w1) ->
  runState (GetVersion s) w1 = (Ok v, w2) ->
  CheckSum (arcdps w) <> "" ->
  c <> CheckSum (arcdps w) ->
  notifications (events (tick s) w) = [(quoted_checksum c, quoted_version v)]
  /\ Contains (quoted_checksum c) c
  /\ posts (events (tick s) w)
     = match url_Parse (webhookURL s) with
       | Ok u => [webhook_request u (quoted_checksum c) (quoted_version v)]
       | Err _ => []
       end
  /\ (forall req, In req (posts (events (tick s) w)) ->
        exists body, ReqBody req = Some body /\ Contains body c)
  /\ arcdps (execState (tick s) w) = {| Timestamp := v; CheckSum := c |}.
Proof.
  intros H1 H2 NE NC.
  destruct (tick_events_fetched s w c w1 v w2 H1 H2) as [fetch [[LN LP] [A [E Ev]]]].
  destruct (compare_cases s c v w2) as [evs [T [[E0 _]|[[_ [Ec _]]|[_ [_ [N [Po R]]]]]]]].
  - rewrite A in E0. contradiction.
  - rewrite A in Ec. now symmetry in Ec.
  - rewrite (Ev evs T), notifications_app, posts_app, LN, LP, N, Po, posts_hook.
    cbn [app]. split; [reflexivity|]. split; [apply quoted_checksum_Contains|].
    split; [reflexivity|]. split; [|now rewrite E].
    intros req. destruct (url_Parse (webhookURL s)) as [u|e]; [|intros []].
    intros [<-|[]]. eexists. split; [reflexivity|].
    eapply Contains_trans; [apply webhook_payload_Contains|apply quoted_checksum_Contains].
Qed.

Lemma tick_failed_frame s w :
  is_err (fst (runState (GetChecksum s) w)) = true \/
  is_err (fst (runState (GetVersion s) (snd (runState (GetChecksum s) w)))) = true ->
  arcdps (execState (tick s) w) = arcdps w
  /\ notifications (events (tick s) w) = []
  /\ posts (events (tick s) w) = [].
Proof.
  intros H.
  destruct (runState (GetChecksum s) w) as [r1 w1] eqn:H1. cbn [fst snd] in H.
  destruct (GetChecksum_frame s w) as [e1 [[A1 T1] [N1 P1]]].
  rewrite H1 in A1, T1. cbn [snd] in A1, T1.
  destruct r1 as [c|e].
  - destruct H as [H|H]; [discriminate|].
    destruct (runState (GetVersion s) w1) as [r2 w2] eqn:H2. cbn [fst] in H.
    destruct r2 as [v|e]; [discriminate|].
    destruct (GetVersion_frame s w1) as [e2 [[A2 T2] [N2 P2]]].
    rewrite H2 in A2, T2. cbn [snd] in A2, T2.
    pose proof (tick_no_version s w c w1 e w2 H1 H2) as E.
    assert (X : exists msg,
               events (tick s) w = (e1 ++ e2 ++ [Logged Error_ msg])%list).
    { eexists. apply events_extends. rewrite E. cbn [trace].
      rewrite T2, T1, <- !app_assoc. reflexivity. }
    destruct X as [msg ->]. rewrite E. cbn [arcdps]. split; [congruence|].
    rewrite !notifications_app, !posts_app, N1, N2, P1, P2. split; reflexivity.
  - pose proof (tick_no_checksum s w e w1 H1) as E.
    assert (X : exists msg, events (tick s) w = (e1 ++ [Logged Error_ msg])%list).
    { eexists. apply events_extends. rewrite E. cbn [trace].
      rewrite T1, <- !app_assoc. reflexivity. }
    destruct X as [msg ->]. rewrite E. cbn [arcdps]. split; [congruence|].
    rewrite !notifications_app, !posts_app, N1, P1. split; reflexivity.
Qed.

(** C2.  On a tick in which [GetChecksum] or [GetVersion] returns an
    error, the record is what it was, [SendWebHook] is not entered and
    no POST goes out. *)
Theorem tick_fetch_error_skips s w :
  is_err (fst (runState (GetChecksum s) w)) = true \/
  is_err (fst (runState (GetVersion s) (snd (runState (GetChecksum s) w)))) = true ->
  arcdps (execState (tick s) w) = arcdps w
  /\ notifications (events (tick s) w) = []
  /\ posts (events (tick s) w) = [].
Proof. apply tick_failed_frame. Qed.

(** C3.  On a tick whose two fetches succeed while the record's checksum
    is empty, the record becomes the fetched checksum and timestamp,
    [SendWebHook] is not entered and no POST goes out. *)
Theorem tick_first_run_adopts_silently s w c w1 v w2 :
  runState (GetChecksum s) w = (Ok c, w1) ->
  runState (GetVersion s) w1 = (Ok v, w2) ->
  CheckSum (arcdps w) = "" ->
  arcdps (execState (tick s) w) = {| Timestamp := v; CheckSum := c |}
  /\ notifications (events (tick s) w) = []
  /\ posts (events (tick s) w) = [].
Proof.
  intros H1 H2 E0.
  destruct (tick_events_fetched s w c w1 v w2 H1 H2) as [fetch [[LN LP] [A [E Ev]]]].
  rewrite <- A in E0.
  pose proof (compare_first s c v w2 E0) as C.
  rewrite (Ev [Logged Info "Setting initial version"]) by now rewrite C.
  rewrite E, C, notifications_app, posts_app, LN, LP. repeat split.
Qed.

(** Two runs of the compare logic on the same fetched values enter
    [SendWebHook] at most once, whatever the record was. *)
Lemma compare_twice s c v w :
  (length (notifications (events (compare s c v ;; compare s c v) w)) <= 1)%nat.
Proof.
  destruct (compare_cases s c v w) as [e1 [T1 D1]].
  destruct (compare_cases s c v (execState (compare s c v) w)) as [e2 [T2 D2]].
  assert (X : execState (compare s c v ;; compare s c v) w
              = execState (compare s c v) (execState (compare s c v) w)).
  { unfold execState. cbn -[compare].
    destruct (runState (compare s c v) w). reflexivity. }
  rewrite (events_extends _ w (e1 ++ e2)) by now rewrite X, T2, T1, app_assoc.
  rewrite notifications_app, length_app.
  assert (N2 : notifications e2 = [] \/
               CheckSum (arcdps (execState (compare s c v) w)) <> c).
  { destruct D2 as [[_ [[N _] _]]|[[_ [_ [-> _]]]|[_ [NC _]]]]; auto. }
  destruct D1 as [[_ [[N1 _] R]]|[[_ [Ec [-> Ew]]]|[_ [_ [N1 [_ R]]]]]].
  - rewrite N1. destruct N2 as [->|NC]; [cbn; lia|]. rewrite R in NC. now cbn in NC.
  - destruct N2 as [->|NC]; [cbn; lia|]. rewrite Ew in NC. contradiction.
  - rewrite N1. destruct N2 as [->|NC]; [cbn; lia|]. rewrite R in NC. now cbn in NC.
Qed.

(** C7.  On a tick whose two fetches succeed with the checksum the
    record already holds (and that is not empty), the record keeps both
    fields, [SendWebHook] is not entered and no POST goes out; and two
    runs of the compare logic on the same fetched values never enter
    [SendWebHook] twice. *)
Theorem tick_same_checksum_no_action s w c w1 v w2 :
  runState (GetChecksum s) w = (Ok c, w1) ->
  runState (GetVersion s) w1 = (Ok v, w2) ->
  CheckSum (arcdps w) <> "" ->
  c = CheckSum (arcdps w) ->
  (arcdps (execState (tick s) w) = arcdps w
   /\ notifications (events (tick s) w) = []
   /\ posts (events (tick s) w) = [])
  /\ (forall w0 c0 v0,
        (length (notifications (events (compare s c0 v0 ;; compare s c0 v0) w0)) <= 1)%nat).
Proof.
  intros H1 H2 NE Ec. split; [|intros; apply compare_twice].
  destruct (tick_events_fetched s w c w1 v w2 H1 H2) as [fetch [[LN LP] [A [E Ev]]]].
  rewrite <- A in NE, Ec. symmetry in Ec.
  pose proof (compare_same s c v w2 NE Ec) as C.
  rewrite (Ev []) by now rewrite C, app_nil_r.
  rewrite E, C, app_nil_r. auto.
Qed.

(** What a tick can do to the record. *)
Lemma compare_record s c v w :
  arcdps (execState (compare s c v) w) = arcdps w \/
  arcdps (execState (compare s c v) w) = {| Timestamp := v; CheckSum := c |}.
Proof.
  destruct (compare_cases s c v w) as [evs [_ [[_ [_ R]]|[[_ [_ [_ R]]]|[_ [_ [_ [_ R]]]]]]]].
  - now right.
  - left. now rewrite R.
  - now right.
Qed.

Lemma tick_record s w :
  arcdps (execState (tick s) w) = arcdps w \/
  exists c w1 v w2,
    runState (GetChecksum s) w = (Ok c, w1) /\
    runState (GetVersion s) w1 = (Ok v, w2) /\
    arcdps (execState (tick s) w) = {| Timestamp := v; CheckSum := c |}.
Proof.
  destruct (runState (GetChecksum s) w) as [[c|e] w1] eqn:H1.
  - destruct (runState (GetVersion s) w1) as [[v|e] w2] eqn:H2.
    + destruct (tick_events_fetched s w c w1 v w2 H1 H2) as [_ [_ [A [E _]]]].
      rewrite E. destruct (compare_record s c v w2) as [R|R].
      * left. congruence.
      * right. exists c, w1, v, w2. auto.
    + left. apply tick_failed_frame. right. now rewrite H1; cbn; rewrite H2.
  - left. apply tick_failed_frame. left. now rewrite H1.
Qed.

Lemma Single_GetChecksum_frame s w :
  arcdps (snd (runState (SingleRequest.GetChecksum s) w)) = arcdps w.
Proof.
  unfold SingleRequest.GetChecksum, NewRequestWithContext.
  destruct (url_Parse ArcDPSCheckSumURL) as [u|e]; cbn; [|reflexivity].
  destruct (http s (trace w) _) as [resp|e]; cbn; [|reflexivity].
  destruct (Body resp); cbn; [|reflexivity].
  destruct (299 <? StatusCode resp)%Z; cbn; [reflexivity|].
  destruct (time_Parse _ _); cbn; [|reflexivity].
  destruct (length (strings.Split a " ")) as [|[|n]]; reflexivity.
Qed.

Lemma Single_tick_record s w :
  arcdps (execState (SingleRequest.tick s) w) = arcdps w \/
  exists check w1,
    runState (SingleRequest.GetChecksum s) w = (Ok check, w1) /\
    arcdps (execState (SingleRequest.tick s) w)
    = {| Timestamp := SingleRequest.LastModified check;
         CheckSum := SingleRequest.Checksum_ check |}.
Proof.
  pose proof (Single_GetChecksum_frame s w) as A.
  destruct (runState (SingleRequest.GetChecksum s) w) as [[check|e] w1] eqn:H1;
    cbn [snd] in A.
  - assert (E : execState (SingleRequest.tick s) w
                = execState (compare s (SingleRequest.Checksum_ check)
                               (SingleRequest.LastModified check)) w1).
    { unfold execState, SingleRequest.tick.
      cbn -[SingleRequest.GetChecksum SendWebHook]. rewrite H1. reflexivity. }
    rewrite E. destruct (compare_record s (SingleRequest.Checksum_ check)
                           (SingleRequest.LastModified check) w1) as [R|R].
    + left. congruence.
    + right. exists check, w1. auto.
  - left. unfold execState, SingleRequest.tick.
    cbn -[SingleRequest.GetChecksum]. rewrite H1. exact A.
Qed.

(** C9.  A tick either leaves the record as it was, or sets both fields
    at once to the checksum and the timestamp that the fetch of this
    very tick returned: in the two-request program and in the
    single-request variant. *)
Theorem tick_sets_both_fields_or_none s w :
  (arcdps (execState (tick s) w) = arcdps w \/
   exists c w1 v w2,
     runState (GetChecksum s) w = (Ok c, w1) /\
     runState (GetVersion s) w1 = (Ok v, w2) /\
     arcdps (execState (tick s) w) = {| Timestamp := v; CheckSum := c |})
  /\
  (arcdps (execState (SingleRequest.tick s) w) = arcdps w \/
   exists check w1,
     runState (SingleRequest.GetChecksum s) w = (Ok check, w1) /\
     arcdps (execState (SingleRequest.tick s) w)
     = {| Timestamp := SingleRequest.LastModified check;
          CheckSum := SingleRequest.Checksum_ check |}).
Proof. split; [apply tick_record|apply Single_tick_record]. Qed.

Lemma loop_cons s rest w :
  execState (loop s (ticker_C :: rest)) w = execState (loop s rest) (execState (tick s) w).
Proof.
  unfold execState. cbn -[tick]. destruct (runState (tick s) w). reflexivity.
Qed.

Lemma Tick_loop s turns w :
  arcdps (execState (Tick s turns) w)
  = arcdps (execState (loop s turns)
              {| arcdps := arcdps w;
                 trace := (trace w ++ [Logged Info "Starting Check Ticker"])%list |}).
Proof. reflexivity. Qed.

(** C5, as the program has it.  With a server whose successful checksum
    fetches never return the empty checksum, a record whose checksum is
    set keeps a non-empty checksum through every run of the loop, and
    after a tick whose two fetches succeed the checksum is not empty. *)
Theorem checksum_never_cleared s :
  (forall w c w1, runState (GetChecksum s) w = (Ok c, w1) -> c <> "") ->
  (forall turns w,
     CheckSum (arcdps w) <> "" ->
     CheckSum (arcdps (execState (Tick s turns) w)) <> "")
  /\ (forall w c w1 v w2,
        runState (GetChecksum s) w = (Ok c, w1) ->
        runState (GetVersion s) w1 = (Ok v, w2) ->
        CheckSum (arcdps (execState (tick s) w)) <> "").
Proof.
  intros H.
  assert (St : forall w, CheckSum (arcdps w) <> "" ->
                         CheckSum (arcdps (execState (tick s) w)) <> "").
  { intros w NE. destruct (tick_record s w) as [R|[c [w1 [v [w2 [H1 [_ R]]]]]]];
      rewrite R; [exact NE|]. cbn. eapply H, H1. }
  split.
  - intros turns w NE. rewrite Tick_loop.
    set (w0 := {| arcdps := arcdps w; trace := _ |}).
    assert (NE0 : CheckSum (arcdps w0) <> "") by exact NE.
    clearbody w0. clear w NE. revert w0 NE0.
    induction turns as [|[|] rest IH]; intros w NE; [exact NE| |exact NE].
    rewrite loop_cons. apply IH, St, NE.
  - intros w c w1 v w2 H1 H2.
    destruct (tick_events_fetched s w c w1 v w2 H1 H2) as [_ [_ [A [E _]]]].
    rewrite E.
    destruct (compare_cases s c v w2) as [evs [_ [[_ [_ R]]|[[NE [Ec [_ R]]]|[_ [_ [_ [_ R]]]]]]]];
      rewrite R; cbn; try (eapply H, H1). exact NE.
Qed.

End Poller.

(** ** The remote checker and the notifier *)

Section Checker.

Context {P : Platform}.

(** The run of [GetChecksum] on an answer whose body was read. *)
Lemma GetChecksum_answer s w u resp body :
  url_Parse ArcDPSCheckSumURL = Ok u ->
  http s (trace w) (checksum_request u) = Ok resp ->
  Body resp = Ok body ->
  fst (runState (GetChecksum s) w) =
  if (299 <? StatusCode resp)%Z then
    Err (fmt.Errorf "bad response from delta: (%s)" [fmt.str body])
  else if (length (strings.Split body " ") <? 2)%nat then
    Err (fmt.Errorf "incorrect size of checksum split" [])
  else Ok (strings.before body " ").
Proof.
  intros Hu Hr Hb. unfold GetChecksum, NewRequestWithContext. rewrite Hu.
  cbn -[Nat.ltb]. fold (checksum_request u). rewrite Hr, Hb.
  destruct (299 <? StatusCode resp)%Z; [reflexivity|].
  destruct (length (strings.Split body " ") <? 2)%nat; [reflexivity|].
  cbn. now rewrite Split_first.
Qed.

Lemma Single_GetChecksum_answer s w u resp body t :
  url_Parse ArcDPSCheckSumURL = Ok u ->
  http s (trace w) (checksum_request u) = Ok resp ->
  Body resp = Ok body ->
  time_Parse time.RFC1123 (Header_Get (RespHeader resp) "Last-Modified") = Ok t ->
  fst (runState (SingleRequest.GetChecksum s) w) =
  if (299 <? StatusCode resp)%Z then
    Err (fmt.Errorf "bad response from delta: (%s)" [fmt.str body])
  else if (length (strings.Split body " ") <? 2)%nat then
    Err (fmt.Errorf "incorrect size of checksum split" [])
  else Ok {| SingleRequest.Checksum_ := strings.before body " ";
             SingleRequest.LastModified := t |}.
Proof.
  intros Hu Hr Hb Ht. unfold SingleRequest.GetChecksum, NewRequestWithContext.
  rewrite Hu. cbn -[Nat.ltb]. fold (checksum_request u). rewrite Hr, Hb.
  destruct (299 <? StatusCode resp)%Z; [reflexivity|]. rewrite Ht.
  destruct (length (strings.Split body " ") <? 2)%nat; [reflexivity|].
  cbn. now rewrite Split_first.
Qed.

(** The causes of a failed fetch that the error taxonomy lists. *)
Lemma GetChecksum_transport_error s w u e :
  url_Parse ArcDPSCheckSumURL = Ok u ->
  http s (trace w) (checksum_request u) = Err e ->
  fst (runState (GetChecksum s) w) = Err e.
Proof.
  intros Hu Hr. unfold GetChecksum, NewRequestWithContext. rewrite Hu.
  cbn. fold (checksum_request u). now rewrite Hr.
Qed.

Lemma GetChecksum_bad_status s w u resp :
  url_Parse ArcDPSCheckSumURL = Ok u ->
  http s (trace w) (checksum_request u) = Ok resp ->
  (300 <= StatusCode resp)%Z ->
  is_err (fst (runState (GetChecksum s) w)) = true.
Proof.
  intros Hu Hr Hs. unfold GetChecksum, NewRequestWithContext. rewrite Hu.
  cbn -[Nat.ltb]. fold (checksum_request u). rewrite Hr.
  destruct (Body resp); [|reflexivity].
  destruct (Z.ltb_spec 299 (StatusCode resp)); [reflexivity|lia].
Qed.

Lemma GetChecksum_malformed s w u resp body :
  url_Parse ArcDPSCheckSumURL = Ok u ->
  http s (trace w) (checksum_request u) = Ok resp ->
  Body resp = Ok body ->
  strings.Count body " " = 0 ->
  is_err (fst (runState (GetChecksum s) w)) = true.
Proof.
  intros Hu Hr Hb Hc. rewrite (GetChecksum_answer s w u resp body Hu Hr Hb).
  destruct (299 <? StatusCode resp)%Z; [reflexivity|].
  now rewrite (proj2 (Split_short body " ") Hc).
Qed.

Lemma GetVersion_failures s w u :
  url_Parse ArcDPSDLLURL = Ok u ->
  (forall e, http s (trace w) (version_request u) = Err e ->
             fst (runState (GetVersion s) w) = Err e)
  /\ (forall resp,
        http s (trace w) (version_request u) = Ok resp ->
        (300 <= StatusCode resp)%Z
        \/ is_err (time_Parse time.RFC1123
                     (Header_Get (RespHeader resp) "Last-Modified")) = true ->
        is_err (fst (runState (GetVersion s) w)) = true).
Proof.
  intros Hu. unfold GetVersion, NewRequestWithContext. rewrite Hu.
  cbn. fold (version_request u). split.
  - intros e ->. reflexivity.
  - intros resp -> H. destruct (Z.ltb_spec 299 (StatusCode resp)).
    + destruct (Body resp); reflexivity.
    + destruct H as [H|H]; [lia|].
      destruct (time_Parse _ _); [discriminate|reflexivity].
Qed.

(** C6, as the program has it.  For an answer with a status up to 299
    whose body was read, [GetChecksum] fails exactly when the body holds
    no space byte, and otherwise returns the text before the first space
    byte; the single-request variant does the same once the
    [Last-Modified] header has parsed. *)
Theorem GetChecksum_splits_at_space s w u resp body :
  url_Parse ArcDPSCheckSumURL = Ok u ->
  http s (trace w) (checksum_request u) = Ok resp ->
  Body resp = Ok body ->
  (StatusCode resp <= 299)%Z ->
  ((is_err (fst (runState (GetChecksum s) w)) = true <-> strings.Count body " " = 0)
   /\ (forall c rest,
         body = c ++ String " " rest -> strings.Count c " " = 0 ->
         fst (runState (GetChecksum s) w) = Ok c))
  /\ (forall t,
        time_Parse time.RFC1123 (Header_Get (RespHeader resp) "Last-Modified") = Ok t ->
        (is_err (fst (runState (SingleRequest.GetChecksum s) w)) = true
         <-> strings.Count body " " = 0)
        /\ (forall c rest,
              body = c ++ String " " rest -> strings.Count c " " = 0 ->
              fst (runState (SingleRequest.GetChecksum s) w)
              = Ok {| SingleRequest.Checksum_ := c; SingleRequest.LastModified := t |})).
Proof.
  intros Hu Hr Hb Hs.
  assert (Hlt : (299 <? StatusCode resp)%Z = false) by (apply Z.ltb_ge; lia).
  assert (Hsp : forall c rest, body = c ++ String " " rest ->
                (length (strings.Split body " ") <? 2)%nat = false).
  { intros c rest ->. rewrite Split_length. apply Nat.ltb_ge.
    clear. induction c as [|a c IH]; cbn; [lia|]. destruct (Ascii.eqb a " "); lia. }
  split; [|intros t Ht].
  - rewrite (GetChecksum_answer s w u resp body Hu Hr Hb), Hlt. split.
    + destruct (length (strings.Split body " ") <? 2)%nat eqn:E.
      * split; [intros _; now apply Split_short|reflexivity].
      * split; [discriminate|]. intros C. apply Split_short in C. congruence.
    + intros c rest E C. rewrite (Hsp c rest E). subst body.
      now rewrite before_prefix.
  - rewrite (Single_GetChecksum_answer s w u resp body t Hu Hr Hb Ht), Hlt. split.
    + destruct (length (strings.Split body " ") <? 2)%nat eqn:E.
      * split; [intros _; now apply Split_short|reflexivity].
      * split; [discriminate|]. intros C. apply Split_short in C. congruence.
    + intros c rest E C. rewrite (Hsp c rest E). subst body.
      now rewrite before_prefix.
Qed.

(** C10.  A body that starts with a space has at least two pieces whose
    first is empty, and [GetChecksum] returns the empty checksum for it
    without an error. *)
Theorem GetChecksum_empty_checksum s w u resp :
  url_Parse ArcDPSCheckSumURL = Ok u ->
  http s (trace w) (checksum_request u) = Ok resp ->
  Body resp = Ok " d3d9.dll" ->
  (StatusCode resp <= 299)%Z ->
  (2 <= length (strings.Split " d3d9.dll" " "))%nat
  /\ nth 0 (strings.Split " d3d9.dll" " ") "none" = ""
  /\ runState (GetChecksum s) w
     = (Ok "", {| arcdps := arcdps w;
                  trace := (trace w ++ [RoundTrip (checksum_request u)])%list |}).
Proof.
  intros Hu Hr Hb Hs. split; [cbn; lia|]. split; [reflexivity|].
  unfold GetChecksum, NewRequestWithContext. rewrite Hu.
  cbn. fold (checksum_request u). rewrite Hr, Hb.
  destruct (Z.ltb_spec 299 (StatusCode resp)); [lia|]. reflexivity.
Qed.


End Checker.

(** ** The state file *)

Section StateFileFacts.

Context {P : Platform}.

Lemma take_0 s : os.take 0 s = "".
Proof. destruct s; reflexivity. Qed.

(** What [Save] leaves in the file: the new document, then whatever the
    old content had beyond the length of the new document. *)
Lemma Save_contents f v :
  os.contents (Save f v)
  = yaml_Marshal (Timestamp v) (CheckSum v)
    ++ os.drop (String.length (yaml_Marshal (Timestamp v) (CheckSum v))) (os.contents f).
Proof.
  unfold Save, Encode, os.Write, os.Seek. cbn [os.contents os.offset].
  now rewrite take_0.
Qed.

End StateFileFacts.

(** C4 against the program.  [main] rewinds the descriptor and writes the
    new document over the old bytes without truncating the file: with
    the old content longer than the new document, the old tail stays
    behind it and the file is not the encoding of the record. *)
Theorem Save_leaves_old_tail :
  os.contents (Save state_file short_record)
  = demo_marshal nov_2009 "abc123" ++ "789abcdef0123456789abcdef
"
  /\ os.contents (Save state_file short_record) <> demo_marshal nov_2009 "abc123".
Proof. split; [reflexivity|discriminate]. Qed.

(** ** The testable properties of the specification, run *)

Example first_fetch_sets_baseline :
  execState (tick publishes_abc123) first_run =
  {| arcdps := {| Timestamp := jan_2006; CheckSum := "abc123" |};
     trace := [RoundTrip (checksum_request ArcDPSCheckSumURL);
               RoundTrip (version_request ArcDPSDLLURL);
               Logged Info "Setting initial version"] |}.
Proof. reflexivity. Qed.

Example same_checksum_does_nothing :
  arcdps (execState (tick publishes_abc123) stored_abc123) = arcdps stored_abc123
  /\ events (tick publishes_abc123) stored_abc123
     = [RoundTrip (checksum_request ArcDPSCheckSumURL);
        RoundTrip (version_request ArcDPSDLLURL)].
Proof. split; reflexivity. Qed.

Example new_checksum_notifies :
  arcdps (execState (tick publishes_def456) stored_abc123)
  = {| Timestamp := jan_2006; CheckSum := "def456" |}
  /\ events (tick publishes_def456) stored_abc123
     = [RoundTrip (checksum_request ArcDPSCheckSumURL);
        RoundTrip (version_request ArcDPSDLLURL);
        Notifying "`def456`" "`2006-01-02 15:04:05 +0000 GMT`";
        RoundTrip (webhook_request (webhookURL publishes_def456)
                     "`def456`" "`2006-01-02 15:04:05 +0000 GMT`");
        Logged Error_ "unable to send webhook: (bad response from Discord: 500 (webhook down))
"].
Proof. split; reflexivity. Qed.

Example status_500_skips :
  execState (tick checksum_500) stored_abc123 =
  {| arcdps := arcdps stored_abc123;
     trace := [RoundTrip (checksum_request ArcDPSCheckSumURL);
               Logged Error_
                 "Failed getting checksum: (bad response from delta: (Internal Server Error))"] |}.
Proof. reflexivity. Qed.

Example Split_md5sum :
  strings.Split "0123abcd  d3d9.dll" " " = ["0123abcd"; ""; "d3d9.dll"].
Proof. reflexivity. Qed.

Example Split_no_separator : strings.Split "0123abcd" " " = ["0123abcd"].
Proof. reflexivity. Qed.

Example Split_of_empty : strings.Split "" " " = [""].
Proof. reflexivity. Qed.

Example Fields_md5sum :
  strings.Fields "  0123abcd  d3d9.dll " = ["0123abcd"; "d3d9.dll"].
Proof. reflexivity. Qed.

Example Sprintf_status :
  fmt.Sprintf "bad response from Discord: %d (%s)" [fmt.int 404; fmt.str "nope"]
  = "bad response from Discord: 404 (nope)".
Proof. reflexivity. Qed.

(** ** The theorems at concrete inputs *)

Lemma tick_changed_witness :
  notifications (events (tick publishes_def456) stored_abc123)
  = [("`def456`", "`2006-01-02 15:04:05 +0000 GMT`")]
  /\ arcdps (execState (tick publishes_def456) stored_abc123)
     = {| Timestamp := jan_2006; CheckSum := "def456" |}.
Proof.
  destruct (tick_changed_notifies_and_adopts publishes_def456 stored_abc123
              "def456" (snd (runState (GetChecksum publishes_def456) stored_abc123))
              jan_2006
              (snd (runState (GetVersion publishes_def456)
                      (snd (runState (GetChecksum publishes_def456) stored_abc123)))))
    as [N [_ [_ [_ R]]]];
    [reflexivity|reflexivity|discriminate|discriminate|].
  split; [exact N|exact R].
Defined.

Lemma tick_fetch_error_witness :
  arcdps (execState (tick checksum_500) stored_abc123) = arcdps stored_abc123
  /\ notifications (events (tick checksum_500) stored_abc123) = []
  /\ posts (events (tick checksum_500) stored_abc123) = [].
Proof.
  apply (tick_fetch_error_skips checksum_500 stored_abc123).
  left. reflexivity.
Defined.

Lemma tick_first_run_witness :
  arcdps (execState (tick publishes_abc123) first_run)
  = {| Timestamp := jan_2006; CheckSum := "abc123" |}
  /\ notifications (events (tick publishes_abc123) first_run) = []
  /\ posts (events (tick publishes_abc123) first_run) = [].
Proof.
  apply (tick_first_run_adopts_silently publishes_abc123 first_run "abc123"
           (snd (runState (GetChecksum publishes_abc123) first_run)) jan_2006
           (snd (runState (GetVersion publishes_abc123)
                   (snd (runState (GetChecksum publishes_abc123) first_run)))));
    reflexivity.
Defined.

Lemma tick_same_checksum_witness :
  arcdps (execState (tick publishes_abc123) stored_abc123) = arcdps stored_abc123
  /\ notifications (events (tick publishes_abc123) stored_abc123) = []
  /\ posts (events (tick publishes_abc123) stored_abc123) = [].
Proof.
  apply (tick_same_checksum_no_action publishes_abc123 stored_abc123 "abc123"
           (snd (runState (GetChecksum publishes_abc123) stored_abc123)) jan_2006
           (snd (runState (GetVersion publishes_abc123)
                   (snd (runState (GetChecksum publishes_abc123) stored_abc123)))));
    [reflexivity|reflexivity|discriminate|reflexivity].
Defined.

Lemma publishes_abc123_never_empty :
  forall w c w1,
    runState (GetChecksum publishes_abc123) w = (Ok c, w1) -> c <> "".
Proof. intros w c w1 H. cbn in H. injection H as <- _. discriminate. Defined.

Lemma checksum_never_cleared_witness :
  CheckSum (arcdps (execState (Tick publishes_abc123 [ticker_C; ticker_C; ctx_Done])
                      stored_abc123)) <> "".
Proof.
  apply (proj1 (checksum_never_cleared publishes_abc123 publishes_abc123_never_empty)).
  discriminate.
Defined.

Lemma GetChecksum_splits_witness :
  fst (runState (GetChecksum publishes_abc123) first_run) = Ok "abc123".
Proof.
  refine (proj2 (proj1 (GetChecksum_splits_at_space publishes_abc123 first_run
            ArcDPSCheckSumURL
            {| StatusCode := 200;
               RespHeader := [("Last-Modified", [jan_2006_header])];
               Body := Ok "abc123  d3d9.dll" |}
            "abc123  d3d9.dll" _ _ _ _)) "abc123" " d3d9.dll" _ _);
    try reflexivity.
  cbn. lia.
Defined.

Lemma GetChecksum_empty_checksum_witness :
  fst (runState (GetChecksum leading_space) stored_abc123) = Ok "".
Proof.
  refine (f_equal fst (proj2 (proj2 (GetChecksum_empty_checksum leading_space
            stored_abc123 ArcDPSCheckSumURL
            {| StatusCode := 200;
               RespHeader := [("Last-Modified", [jan_2006_header])];
               Body := Ok " d3d9.dll" |} _ _ _ _))));
    try reflexivity.
  cbn. lia.
Defined.


(** ** Where the specification and the program part *)

(** C5 as stated fails: a successful fetch of a body that starts with a
    space clears a record that was set. *)
Lemma checksum_cleared_by_empty_fetch :
  CheckSum (arcdps stored_abc123) = "abc123"
  /\ fst (runState (GetChecksum leading_space) stored_abc123) = Ok ""
  /\ CheckSum (arcdps (execState (Tick leading_space [ticker_C]) stored_abc123)) = "".
Proof. repeat split. Qed.

(** C6 as stated fails: a body with one white-space token and a trailing
    space is accepted, and a body whose two tokens are separated by a
    tab is refused. *)
Lemma GetChecksum_is_not_by_white_space :
  (strings.Fields "abc123 " = ["abc123"]
   /\ fst (runState (GetChecksum trailing_space) first_run) = Ok "abc123")
  /\ (strings.Fields tab_separated = ["abc123"; "d3d9.dll"]
      /\ is_err (fst (runState
                        (GetChecksum (demo_server 200 tab_separated jan_2006_header 204 ""))
                        first_run)) = true).
Proof. repeat split. Qed.


(** * Further properties of the program *)

(** ** The remote checker, in full *)

Section CheckerRuns.

Context {P : Platform}.

(** The run of [GetChecksum], by cases on the URL and on the answer. *)
Lemma GetChecksum_run s w :
  runState (GetChecksum s) w =
  match url_Parse ArcDPSCheckSumURL with
  | Err e => (Err e, w)
  | Ok u =>
      (match http s (trace w) (checksum_request u) with
       | Err e => Err e
       | Ok resp =>
           match Body resp with
           | Err e => Err e
           | Ok body =>
               if (299 <? StatusCode resp)%Z then
                 Err (fmt.Errorf "bad response from delta: (%s)" [fmt.str body])
               else if (length (strings.Split body " ") <? 2)%nat then
                 Err (fmt.Errorf "incorrect size of checksum split" [])
               else Ok (strings.before body " ")
           end
       end,
       {| arcdps := arcdps w;
          trace := (trace w ++ [RoundTrip (checksum_request u)])%list |})
  end.
Proof.
  unfold GetChecksum, NewRequestWithContext.
  destruct (url_Parse ArcDPSCheckSumURL) as [u|e]; [|reflexivity].
  cbn -[Nat.ltb fmt.Errorf]. fold (checksum_request u).
  destruct (http s (trace w) (checksum_request u)) as [resp|e]; [|reflexivity].
  destruct (Body resp) as [body|e]; [|reflexivity].
  destruct (299 <? StatusCode resp)%Z; [reflexivity|].
  destruct (length (strings.Split body " ") <? 2)%nat; [reflexivity|].
  cbn. now rewrite Split_first.
Qed.

Lemma GetVersion_run s w :
  runState (GetVersion s) w =
  match url_Parse ArcDPSDLLURL with
  | Err e => (Err e, w)
  | Ok u =>
      (match http s (trace w) (version_request u) with
       | Err e => Err e
       | Ok resp =>
           if (299 <? StatusCode resp)%Z then
             match Body resp with
             | Err e => Err e
             | Ok body =>
                 Err (fmt.Errorf "bad response from delta: (%s)" [fmt.str body])
             end
           else
             match time_Parse time.RFC1123
                     (Header_Get (RespHeader resp) "Last-Modified") with
             | Err e =>
                 Err (fmt.Errorf "unable to parse time: (%v)" [fmt.str (Error e)])
             | Ok t => Ok t
             end
       end,
       {| arcdps := arcdps w;
          trace := (trace w ++ [RoundTrip (version_request u)])%list |})
  end.
Proof.
  unfold GetVersion, NewRequestWithContext.
  destruct (url_Parse ArcDPSDLLURL) as [u|e]; [|reflexivity].
  cbn -[fmt.Errorf]. fold (version_request u).
  destruct (http s (trace w) (version_request u)) as [resp|e]; [|reflexivity].
  destruct (299 <? StatusCode resp)%Z.
  - destruct (Body resp); reflexivity.
  - destruct (time_Parse _ _); reflexivity.
Qed.

Lemma Single_GetChecksum_run s w :
  runState (SingleRequest.GetChecksum s) w =
  match url_Parse ArcDPSCheckSumURL with
  | Err e => (Err e, w)
  | Ok u =>
      (match http s (trace w) (checksum_request u) with
       | Err e => Err e
       | Ok resp =>
           match Body resp with
           | Err e => Err e
           | Ok body =>
               if (299 <? StatusCode resp)%Z then
                 Err (fmt.Errorf "bad response from delta: (%s)" [fmt.str body])
               else
                 match time_Parse time.RFC1123
                         (Header_Get (RespHeader resp) "Last-Modified") with
                 | Err e =>
                     Err (fmt.Errorf "unable to parse time: (%v)" [fmt.str (Error e)])
                 | Ok t =>
                     if (length (strings.Split body " ") <? 2)%nat then
                       Err (fmt.Errorf "incorrect size of checksum split" [])
                     else Ok {| SingleRequest.Checksum_ := strings.before body " ";
                                SingleRequest.LastModified := t |}
                 end
           end
       end,
       {| arcdps := arcdps w;
          trace := (trace w ++ [RoundTrip (checksum_request u)])%list |})
  end.
Proof.
  unfold SingleRequest.GetChecksum, NewRequestWithContext.
  destruct (url_Parse ArcDPSCheckSumURL) as [u|e]; [|reflexivity].
  cbn -[Nat.ltb fmt.Errorf]. fold (checksum_request u).
  destruct (http s (trace w) (checksum_request u)) as [resp|e]; [|reflexivity].
  destruct (Body resp) as [body|e]; [|reflexivity].
  destruct (299 <? StatusCode resp)%Z; [reflexivity|].
  destruct (time_Parse _ _); [|reflexivity].
  destruct (length (strings.Split body " ") <? 2)%nat; [reflexivity|].
  cbn. now rewrite Split_first.
Qed.

Lemma events_of_trace {A} (m : M A) w evs :
  trace (snd (runState m w)) = (trace w ++ evs)%list -> events m w = evs.
Proof. intros H. apply events_extends. exact H. Qed.


(** X2.  When [GetChecksum] succeeds with [c], the answer had a status
    of at most 299 and a body made of [c], one space and a rest, and [c]
    holds no space: the checksum is the text up to the first space. *)
Theorem GetChecksum_success_only_if s w c w1 :
  runState (GetChecksum s) w = (Ok c, w1) ->
  exists u resp rest,
    url_Parse ArcDPSCheckSumURL = Ok u
    /\ http s (trace w) (checksum_request u) = Ok resp
    /\ (StatusCode resp <= 299)%Z
    /\ Body resp = Ok (c ++ String " " rest)
    /\ strings.Count c " " = 0.
Proof.
  rewrite GetChecksum_run. intros H.
  destruct (url_Parse ArcDPSCheckSumURL) as [u|e]; [|discriminate].
  destruct (http s (trace w) (checksum_request u)) as [resp|e] eqn:Hr; [|discriminate].
  destruct (Body resp) as [body|e] eqn:Hb; [|discriminate].
  destruct (Z.ltb_spec 299 (StatusCode resp)) as [|Hs]; [discriminate|].
  destruct (length (strings.Split body " ") <? 2)%nat eqn:Hl; [discriminate|].
  injection H as <- _.
  assert (C : strings.Count body " " <> 0).
  { intros C. apply Split_short in C. congruence. }
  destruct (before_decompose body " " C) as [rest [E N]].
  exists u, resp, rest. rewrite <- E. repeat split; assumption.
Qed.

(** X3.  On an answer to its HEAD request, [GetVersion] returns a time
    exactly when the status is at most 299 and the [Last-Modified]
    header parses as RFC 1123, and then returns the parsed time; the
    body plays no part. *)
Theorem GetVersion_success_iff s w u resp t :
  url_Parse ArcDPSDLLURL = Ok u ->
  http s (trace w) (version_request u) = Ok resp ->
  evalState (GetVersion s) w = Ok t
  <-> ((StatusCode resp <= 299)%Z
       /\ time_Parse time.RFC1123 (Header_Get (RespHeader resp) "Last-Modified") = Ok t).
Proof.
  intros Hu Hr. unfold evalState. rewrite GetVersion_run, Hu, Hr. cbn [fst].
  destruct (Z.ltb_spec 299 (StatusCode resp)) as [Hs|Hs].
  - split; [destruct (Body resp); discriminate|lia].
  - destruct (time_Parse _ _) as [t'|e].
    + split; [intros [= ->]; split; [lia|reflexivity]|intros [_ [= ->]]; reflexivity].
    + split; [discriminate|intros [_ X]; discriminate].
Qed.

Lemma delta_error_Contains body :
  Contains (Error (fmt.Errorf "bad response from delta: (%s)" [fmt.str body])) body.
Proof. exists "bad response from delta: (", ")". reflexivity. Qed.

(** X4.  On an answered request with a status of 300 or more, both
    fetches fail; the error text carries the response body when the body
    can be read and is the read error otherwise.  [GetChecksum] reads
    the body before it looks at the status: a failed read is its error
    whatever the status. *)
Theorem fetch_errors_carry_body s w u resp :
  (url_Parse ArcDPSCheckSumURL = Ok u ->
   http s (trace w) (checksum_request u) = Ok resp ->
   (forall e, Body resp = Err e -> evalState (GetChecksum s) w = Err e)
   /\ (forall body, Body resp = Ok body -> (300 <= StatusCode resp)%Z ->
         exists e, evalState (GetChecksum s) w = Err e /\ Contains (Error e) body))
  /\
  (url_Parse ArcDPSDLLURL = Ok u ->
   http s (trace w) (version_request u) = Ok resp ->
   (300 <= StatusCode resp)%Z ->
   (forall e, Body resp = Err e -> evalState (GetVersion s) w = Err e)
   /\ (forall body, Body resp = Ok body ->
         exists e, evalState (GetVersion s) w = Err e /\ Contains (Error e) body)).
Proof.
  split.
  - intros Hu Hr. unfold evalState. rewrite GetChecksum_run, Hu, Hr. cbn [fst]. split.
    + intros e ->. reflexivity.
    + intros body -> Hs. destruct (Z.ltb_spec 299 (StatusCode resp)); [|lia].
      eexists. split; [reflexivity|apply delta_error_Contains].
  - intros Hu Hr Hs. unfold evalState. rewrite GetVersion_run, Hu, Hr. cbn [fst].
    destruct (Z.ltb_spec 299 (StatusCode resp)); [|lia]. split.
    + intros e ->. reflexivity.
    + intros body ->. eexists. split; [reflexivity|apply delta_error_Contains].
Qed.

(** X5.  When the single-request [GetChecksum] succeeds, checksum and
    timestamp come from one and the same answer: its status is at most
    299, its body is the checksum, one space and a rest, and its
    [Last-Modified] header parses to the timestamp. *)
Theorem Single_GetChecksum_success_only_if s w check w1 :
  runState (SingleRequest.GetChecksum s) w = (Ok check, w1) ->
  exists u resp rest,
    url_Parse ArcDPSCheckSumURL = Ok u
    /\ http s (trace w) (checksum_request u) = Ok resp
    /\ (StatusCode resp <= 299)%Z
    /\ Body resp = Ok (SingleRequest.Checksum_ check ++ String " " rest)
    /\ strings.Count (SingleRequest.Checksum_ check) " " = 0
    /\ time_Parse time.RFC1123 (Header_Get (RespHeader resp) "Last-Modified")
       = Ok (SingleRequest.LastModified check).
Proof.
  rewrite Single_GetChecksum_run. intros H.
  destruct (url_Parse ArcDPSCheckSumURL) as [u|e]; [|discriminate].
  destruct (http s (trace w) (checksum_request u)) as [resp|e] eqn:Hr; [|discriminate].
  destruct (Body resp) as [body|e] eqn:Hb; [|discriminate].
  destruct (Z.ltb_spec 299 (StatusCode resp)) as [|Hs]; [discriminate|].
  destruct (time_Parse _ _) as [t|e] eqn:Ht; [|discriminate].
  destruct (length (strings.Split body " ") <? 2)%nat eqn:Hl; [discriminate|].
  injection H as <- _. cbn [SingleRequest.Checksum_ SingleRequest.LastModified].
  assert (C : strings.Count body " " <> 0).
  { intros C. apply Split_short in C. congruence. }
  destruct (before_decompose body " " C) as [rest [E N]].
  exists u, resp, rest. rewrite <- E. repeat split; assumption.
Qed.

(** X6.  In the single-request variant a [Last-Modified] header that
    does not parse fails the fetch whatever the body holds, also a body
    without space: the time is parsed before the body is split. *)
Theorem Single_GetChecksum_needs_timestamp s w u resp body e :
  url_Parse ArcDPSCheckSumURL = Ok u ->
  http s (trace w) (checksum_request u) = Ok resp ->
  Body resp = Ok body ->
  (StatusCode resp <= 299)%Z ->
  time_Parse time.RFC1123 (Header_Get (RespHeader resp) "Last-Modified") = Err e ->
  evalState (SingleRequest.GetChecksum s) w
  = Err (fmt.Errorf "unable to parse time: (%v)" [fmt.str (Error e)]).
Proof.
  intros Hu Hr Hb Hs Ht. unfold evalState.
  rewrite Single_GetChecksum_run, Hu, Hr, Hb, Ht. cbn [fst].
  destruct (Z.ltb_spec 299 (StatusCode resp)); [lia|reflexivity].
Qed.

End CheckerRuns.

(** ** The notifier, in full *)

Section NotifierRuns.

Context {P : Platform}.

Lemma Sprintf_plain p a : strings.Count p "%" = 0 -> fmt.Sprintf p a = p.
Proof.
  induction p as [|c p IH]; cbn [strings.Count fmt.Sprintf]; intros H; [reflexivity|].
  destruct (Ascii.eqb c "%"); [discriminate|]. now rewrite IH.
Qed.

Lemma Sprintf_three p0 p1 p2 p3 a b c :
  strings.Count p0 "%" = 0 -> strings.Count p1 "%" = 0 ->
  strings.Count p2 "%" = 0 -> strings.Count p3 "%" = 0 ->
  fmt.Sprintf (p0 ++ String "%" (String "s" (p1 ++ String "%" (String "s"
                 (p2 ++ String "%" (String "s" p3))))))
    [fmt.str a; fmt.str b; fmt.str c]
  = p0 ++ a ++ p1 ++ b ++ p2 ++ c ++ p3.
Proof.
  intros H0 H1 H2 H3.
  rewrite !Sprintf_first by assumption. now rewrite Sprintf_plain.
Qed.

(** X7.  The payload is the template with its three directives replaced,
    in order, by the checksum argument, the time argument and the text
    [10m0s], each inserted as it is; the four pieces of the template
    around the directives hold no percent sign. *)
Theorem webhook_payload_fills_template :
  exists p0 p1 p2 p3,
    PayloadJSON
    = p0 ++ String "%" (String "s" (p1 ++ String "%" (String "s"
            (p2 ++ String "%" (String "s" p3)))))
    /\ Forall (fun p => strings.Count p "%" = 0) [p0; p1; p2; p3]
    /\ forall checksum time_,
         webhook_payload checksum time_
         = p0 ++ checksum ++ p1 ++ time_ ++ p2 ++ DefaultTickDuration_String ++ p3.
Proof.
  pose (q0 := strings.before PayloadJSON "%").
  pose (r0 := os.drop (String.length q0 + 2) PayloadJSON).
  pose (q1 := strings.before r0 "%").
  pose (r1 := os.drop (String.length q1 + 2) r0).
  pose (q2 := strings.before r1 "%").
  pose (q3 := os.drop (String.length q2 + 2) r1).
  exists q0, q1, q2, q3.
  assert (E : PayloadJSON
              = q0 ++ String "%" (String "s" (q1 ++ String "%" (String "s"
                      (q2 ++ String "%" (String "s" q3))))))
    by (vm_compute; reflexivity).
  assert (C0 : strings.Count q0 "%" = 0) by (vm_compute; reflexivity).
  assert (C1 : strings.Count q1 "%" = 0) by (vm_compute; reflexivity).
  assert (C2 : strings.Count q2 "%" = 0) by (vm_compute; reflexivity).
  assert (C3 : strings.Count q3 "%" = 0) by (vm_compute; reflexivity).
  clearbody q0 q1 q2 q3. clear r0 r1.
  split; [exact E|]. split; [repeat constructor; assumption|].
  intros checksum time_. unfold webhook_payload. rewrite E.
  now apply Sprintf_three.
Qed.

Lemma round_trips_app t1 t2 :
  round_trips (t1 ++ t2) = (round_trips t1 ++ round_trips t2)%list.
Proof.
  induction t1 as [|e t1 IH]; cbn; [reflexivity|].
  destruct e; cbn; now rewrite IH.
Qed.



End NotifierRuns.

(** ** The loop, in full *)

Section LoopRuns.

Context {P : Platform}.







Lemma loop_after_Done s before after : forall w,
  runState (loop s (before ++ ctx_Done :: after)) w = runState (loop s before) w.
Proof.
  induction before as [|[|] rest IH]; intros w; [reflexivity| |reflexivity].
  cbn -[tick]. destruct (runState (tick s) w) as [[] w']. apply IH.
Qed.

Lemma Single_loop_after_Done s before after : forall w,
  runState (SingleRequest.loop s (before ++ ctx_Done :: after)) w
  = runState (SingleRequest.loop s before) w.
Proof.
  induction before as [|[|] rest IH]; intros w; [reflexivity| |reflexivity].
  cbn -[SingleRequest.tick]. destruct (runState (SingleRequest.tick s) w) as [[] w'].
  apply IH.
Qed.

(** X11.  Once [ctx.Done()] has been selected the loop has returned:
    whatever the ticker delivers afterwards changes neither the record
    nor the history, in both variants of [Tick]. *)
Theorem Tick_stops_at_ctx_Done s before after w :
  runState (Tick s (before ++ ctx_Done :: after)) w = runState (Tick s before) w
  /\ runState (SingleRequest.Tick s (before ++ ctx_Done :: after)) w
     = runState (SingleRequest.Tick s before) w.
Proof.
  split.
  - unfold Tick. cbn -[loop]. apply loop_after_Done.
  - unfold SingleRequest.Tick. cbn -[SingleRequest.loop]. apply Single_loop_after_Done.
Qed.

Lemma Single_tick_fetched s w check w1 :
  runState (SingleRequest.GetChecksum s) w = (Ok check, w1) ->
  execState (SingleRequest.tick s) w
  = execState (compare s (SingleRequest.Checksum_ check)
                 (SingleRequest.LastModified check)) w1
  /\ exists u, w1 = {| arcdps := arcdps w;
                       trace := (trace w ++ [RoundTrip (checksum_request u)])%list |}.
Proof.
  intros H1. split.
  - unfold execState, SingleRequest.tick.
    cbn -[SingleRequest.GetChecksum SendWebHook]. rewrite H1. reflexivity.
  - rewrite Single_GetChecksum_run in H1.
    destruct (url_Parse ArcDPSCheckSumURL) as [u|e]; [|discriminate].
    injection H1 as _ <-. now exists u.
Qed.

(** X12.  The single-request [tick] after a successful fetch: with an
    empty record it adopts the fetched pair silently; with the same
    checksum it does nothing; with another checksum it enters
    [SendWebHook] once with the back-quoted values and adopts the pair. *)
Theorem Single_tick_on_success s w c v w1 :
  runState (SingleRequest.GetChecksum s) w
  = (Ok {| SingleRequest.Checksum_ := c; SingleRequest.LastModified := v |}, w1) ->
  (CheckSum (arcdps w) = "" ->
   arcdps (execState (SingleRequest.tick s) w) = {| Timestamp := v; CheckSum := c |}
   /\ notifications (events (SingleRequest.tick s) w) = []
   /\ posts (events (SingleRequest.tick s) w) = [])
  /\ (CheckSum (arcdps w) <> "" -> CheckSum (arcdps w) = c ->
      arcdps (execState (SingleRequest.tick s) w) = arcdps w
      /\ notifications (events (SingleRequest.tick s) w) = []
      /\ posts (events (SingleRequest.tick s) w) = [])
  /\ (CheckSum (arcdps w) <> "" -> CheckSum (arcdps w) <> c ->
      arcdps (execState (SingleRequest.tick s) w) = {| Timestamp := v; CheckSum := c |}
      /\ notifications (events (SingleRequest.tick s) w)
         = [(quoted_checksum c, quoted_version v)]
      /\ posts (events (SingleRequest.tick s) w)
         = posts (hook_events s (quoted_checksum c) (quoted_version v))).
Proof.
  intros H1. destruct (Single_tick_fetched s w _ w1 H1) as [E [u ->]].
  cbn [SingleRequest.Checksum_ SingleRequest.LastModified] in E.
  set (w1 := {| arcdps := arcdps w; trace := _ |}) in *.
  destruct (compare_cases s c v w1) as [evs [T D]].
  assert (Ev : events (SingleRequest.tick s) w
               = ([RoundTrip (checksum_request u)] ++ evs)%list).
  { apply events_extends. rewrite E, T. unfold w1. cbn [trace].
    now rewrite <- app_assoc. }
  rewrite Ev, E, notifications_app, posts_app. cbn [app notifications posts].
  change (String.eqb (Method (checksum_request u)) "POST") with false. cbn iota.
  change (arcdps w) with (arcdps w1).
  destruct D as [[E0 [[N Po] R]]|[[NE [Ec [-> R]]]|[NE [NC [N [Po R]]]]]].
  - split; [intros _; rewrite R, N, Po; auto|]. split; intros X; contradiction.
  - split; [intros X; contradiction|]. split; [intros _ _; rewrite R; auto|].
    intros _ X; contradiction.
  - split; [intros X; contradiction|]. split; [intros _ X; contradiction|].
    intros _ _. rewrite R, N, Po. auto.
Qed.

(** X13.  The single-request [tick] after a failed fetch only logs: the
    record is what it was, [SendWebHook] is not entered and no POST goes
    out. *)
Theorem Single_tick_on_error s w :
  is_err (evalState (SingleRequest.GetChecksum s) w) = true ->
  arcdps (execState (SingleRequest.tick s) w) = arcdps w
  /\ notifications (events (SingleRequest.tick s) w) = []
  /\ posts (events (SingleRequest.tick s) w) = [].
Proof.
  unfold evalState. intros H.
  destruct (runState (SingleRequest.GetChecksum s) w) as [[check|e] w1] eqn:H1;
    [discriminate|].
  assert (E : execState (SingleRequest.tick s) w
              = {| arcdps := arcdps w1;
                   trace := (trace w1 ++ [Logged Error_
                      (fmt.Sprintf "Failed getting checksum: (%v)" [fmt.str (Error e)])])%list |}).
  { unfold execState, SingleRequest.tick. cbn -[SingleRequest.GetChecksum].
    rewrite H1. reflexivity. }
  rewrite Single_GetChecksum_run in H1.
  destruct (url_Parse ArcDPSCheckSumURL) as [u|e'].
  - injection H1 as _ <-. cbn [arcdps trace] in E.
    rewrite (events_extends _ w [RoundTrip (checksum_request u);
               Logged Error_ (fmt.Sprintf "Failed getting checksum: (%v)" [fmt.str (Error e)])])
      by (rewrite E; cbn [trace]; now rewrite <- app_assoc).
    rewrite E. repeat split.
  - injection H1 as _ <-.
    rewrite (events_extends _ w [Logged Error_
               (fmt.Sprintf "Failed getting checksum: (%v)" [fmt.str (Error e)])])
      by now rewrite E.
    rewrite E. repeat split.
Qed.

(** X19.  A notification is not retried.  After a tick that fetched a
    new, non-empty checksum, a later tick that fetches the same checksum
    again enters [SendWebHook] never and sends no POST, whatever the
    webhook answered the first time. *)
Theorem failed_notification_is_not_retried s w c w1 v w2 w3 v' w4 :
  runState (GetChecksum s) w = (Ok c, w1) ->
  runState (GetVersion s) w1 = (Ok v, w2) ->
  CheckSum (arcdps w) <> "" ->
  c <> CheckSum (arcdps w) ->
  c <> "" ->
  runState (GetChecksum s) (execState (tick s) w) = (Ok c, w3) ->
  runState (GetVersion s) w3 = (Ok v', w4) ->
  notifications (events (tick s) (execState (tick s) w)) = []
  /\ posts (events (tick s) (execState (tick s) w)) = []
  /\ arcdps (execState (tick s) (execState (tick s) w))
     = {| Timestamp := v; CheckSum := c |}.
Proof.
  intros H1 H2 NE NC C0 H3 H4.
  assert (R : arcdps (execState (tick s) w) = {| Timestamp := v; CheckSum := c |}).
  { destruct (tick_events_fetched s w c w1 v w2 H1 H2) as [_ [_ [A [E _]]]].
    rewrite E.
    destruct (compare_cases s c v w2)
      as [evs [_ [[E0 _]|[[_ [Ec _]]|[_ [_ [_ [_ X]]]]]]]].
    - rewrite A in E0. contradiction.
    - rewrite A in Ec. now symmetry in Ec.
    - exact X. }
  set (w' := execState (tick s) w) in *.
  destruct (tick_events_fetched s w' c w3 v' w4 H3 H4) as [fetch [[LN LP] [A [E Ev]]]].
  assert (C : execState (compare s c v') w4 = w4).
  { apply compare_same; rewrite A, R; [exact C0|reflexivity]. }
  rewrite (Ev []) by now rewrite C, app_nil_r.
  rewrite E, C, A, R, app_nil_r. auto.
Qed.

(** X20.  A failed checksum fetch ends the tick at once: what the tick
    adds to the history is what [GetChecksum] added (at most its GET)
    and one error line that carries the error text; no HEAD follows. *)
Theorem tick_stops_after_failed_checksum s w e :
  evalState (GetChecksum s) w = Err e ->
  events (tick s) w
  = (events (GetChecksum s) w
     ++ [Logged Error_ ("Failed getting checksum: (" ++ Error e ++ ")")])%list
  /\ (length (round_trips (events (tick s) w)) <= 1)%nat.
Proof.
  unfold evalState. intros H.
  destruct (runState (GetChecksum s) w) as [r w1] eqn:H1. cbn [fst] in H. subst r.
  pose proof (tick_no_checksum s w e w1 H1) as E.
  pose proof H1 as R1. rewrite GetChecksum_run in R1.
  assert (T : exists evs, trace w1 = (trace w ++ evs)%list
                          /\ (length (round_trips evs) <= 1)%nat).
  { destruct (url_Parse ArcDPSCheckSumURL) as [u|e'];
      injection R1 as _ <-; cbn [trace].
    - exists [RoundTrip (checksum_request u)]. split; [reflexivity|cbn; lia].
    - exists []. split; [now rewrite app_nil_r|cbn; lia]. }
  destruct T as [evs [T L]].
  assert (Eg : events (GetChecksum s) w = evs)
    by (apply events_of_trace; now rewrite H1).
  rewrite Eg.
  rewrite (events_extends (tick s) w
             (evs ++ [Logged Error_ ("Failed getting checksum: (" ++ Error e ++ ")")])).
  - split; [reflexivity|]. rewrite round_trips_app, length_app. cbn. lia.
  - rewrite E. cbn [trace]. rewrite T, <- app_assoc. reflexivity.
Qed.

End LoopRuns.

(** ** The state file and [main] *)

Section SaveRuns.

Context {P : Platform}.

Lemma length_append (a b : string) :
  String.length (a ++ b) = String.length a + String.length b.
Proof. induction a; cbn; congruence. Qed.

Lemma length_drop n s : String.length (os.drop n s) = String.length s - n.
Proof.
  revert s. induction n as [|n IH]; intros [|c s]; cbn; try reflexivity. apply IH.
Qed.

Lemma drop_all n s : String.length s <= n -> os.drop n s = "".
Proof.
  revert s. induction n as [|n IH]; intros [|c s]; cbn; intros H;
    try reflexivity; try lia. apply IH. lia.
Qed.

Lemma append_empty (a : string) : a ++ "" = a.
Proof. induction a; cbn; congruence. Qed.

Lemma take_append a b : os.take (String.length a) (a ++ b) = a.
Proof. induction a; cbn; [destruct b; reflexivity|congruence]. Qed.

Lemma drop_append a b : os.drop (String.length a) (a ++ b) = b.
Proof. induction a; cbn; [reflexivity|assumption]. Qed.

(** X14.  When the content of the file is not longer than the document
    of the record (a file just created, say), the file after [Save]
    holds exactly that document and the offset stands at its end. *)
Theorem Save_exact_on_short_file f v :
  String.length (os.contents f)
  <= String.length (yaml_Marshal (Timestamp v) (CheckSum v)) ->
  os.contents (Save f v) = yaml_Marshal (Timestamp v) (CheckSum v)
  /\ os.offset (Save f v) = String.length (yaml_Marshal (Timestamp v) (CheckSum v)).
Proof.
  intros H. rewrite Save_contents, (drop_all _ _ H), append_empty.
  split; reflexivity.
Qed.

(** X15.  [Save] never shortens the file: its length afterwards is the
    larger of the document's and the old content's; the file always
    starts with the document; and saving the same record again changes
    nothing. *)
Theorem Save_never_shrinks f v :
  String.length (os.contents (Save f v))
  = Nat.max (String.length (yaml_Marshal (Timestamp v) (CheckSum v)))
            (String.length (os.contents f))
  /\ os.take (String.length (yaml_Marshal (Timestamp v) (CheckSum v)))
       (os.contents (Save f v))
     = yaml_Marshal (Timestamp v) (CheckSum v)
  /\ os.contents (Save (Save f v) v) = os.contents (Save f v).
Proof.
  rewrite (Save_contents (Save f v) v), !Save_contents.
  rewrite length_append, length_drop, take_append, drop_append.
  repeat split. lia.
Qed.

End SaveRuns.

Section MainRuns.

Context {P : Platform} {D : Decoder}.







End MainRuns.

(** ** The further properties at concrete inputs *)

Lemma GetChecksum_success_witness :
  exists u resp rest,
    url_Parse ArcDPSCheckSumURL = Ok u
    /\ http publishes_abc123 (trace first_run) (checksum_request u) = Ok resp
    /\ (StatusCode resp <= 299)%Z
    /\ Body resp = Ok ("abc123" ++ String " " rest)
    /\ strings.Count "abc123" " " = 0.
Proof.
  exact (GetChecksum_success_only_if publishes_abc123 first_run "abc123"
           (snd (runState (GetChecksum publishes_abc123) first_run)) eq_refl).
Defined.

Lemma GetVersion_success_witness :
  evalState (GetVersion publishes_abc123) first_run = Ok jan_2006.
Proof.
  refine (proj2 (GetVersion_success_iff publishes_abc123 first_run ArcDPSDLLURL
            {| StatusCode := 200;
               RespHeader := [("Last-Modified", [jan_2006_header])];
               Body := Ok "" |} jan_2006 eq_refl eq_refl) _).
  split; [cbn; lia|reflexivity].
Defined.

Lemma fetch_errors_witness :
  exists e,
    evalState (GetChecksum checksum_500) stored_abc123 = Err e
    /\ Contains (Error e) "Internal Server Error".
Proof.
  refine (proj2 (proj1 (fetch_errors_carry_body checksum_500 stored_abc123
            ArcDPSCheckSumURL
            {| StatusCode := 500;
               RespHeader := [("Last-Modified", [jan_2006_header])];
               Body := Ok "Internal Server Error" |}) eq_refl eq_refl)
            "Internal Server Error" eq_refl _).
  cbn. lia.
Defined.

Lemma Single_GetChecksum_success_witness :
  exists u resp rest,
    url_Parse ArcDPSCheckSumURL = Ok u
    /\ http publishes_abc123 (trace first_run) (checksum_request u) = Ok resp
    /\ (StatusCode resp <= 299)%Z
    /\ Body resp = Ok ("abc123" ++ String " " rest)
    /\ strings.Count "abc123" " " = 0
    /\ time_Parse time.RFC1123 (Header_Get (RespHeader resp) "Last-Modified")
       = Ok jan_2006.
Proof.
  exact (Single_GetChecksum_success_only_if publishes_abc123 first_run
           {| SingleRequest.Checksum_ := "abc123"; SingleRequest.LastModified := jan_2006 |}
           (snd (runState (SingleRequest.GetChecksum publishes_abc123) first_run))
           eq_refl).
Defined.

Lemma Single_GetChecksum_needs_timestamp_witness :
  is_err (evalState (SingleRequest.GetChecksum unparsable_date) first_run) = true.
Proof.
  rewrite (Single_GetChecksum_needs_timestamp unparsable_date first_run
             ArcDPSCheckSumURL
             {| StatusCode := 200;
                RespHeader := [("Last-Modified", ["yesterday"])];
                Body := Ok "abc123  d3d9.dll" |}
             "abc123  d3d9.dll"
             (errors_New ("parsing time: cannot parse yesterday as " ++ time.RFC1123))
             eq_refl eq_refl eq_refl ltac:(cbn; lia) eq_refl).
  reflexivity.
Defined.

Lemma Single_tick_on_success_witness :
  arcdps (execState (SingleRequest.tick publishes_def456) stored_abc123)
  = {| Timestamp := jan_2006; CheckSum := "def456" |}
  /\ notifications (events (SingleRequest.tick publishes_def456) stored_abc123)
     = [("`def456`", "`2006-01-02 15:04:05 +0000 GMT`")].
Proof.
  destruct (proj2 (proj2 (Single_tick_on_success publishes_def456 stored_abc123
              "def456" jan_2006
              (snd (runState (SingleRequest.GetChecksum publishes_def456) stored_abc123))
              eq_refl))) as [R [N _]]; [discriminate|discriminate|].
  split; [exact R|exact N].
Defined.

Lemma Single_tick_on_error_witness :
  arcdps (execState (SingleRequest.tick checksum_500) stored_abc123)
  = arcdps stored_abc123
  /\ notifications (events (SingleRequest.tick checksum_500) stored_abc123) = []
  /\ posts (events (SingleRequest.tick checksum_500) stored_abc123) = [].
Proof. exact (Single_tick_on_error checksum_500 stored_abc123 eq_refl). Defined.

Lemma Save_exact_witness :
  os.contents (Save fresh_file short_record) = demo_marshal nov_2009 "abc123"
  /\ os.offset (Save fresh_file short_record) = 50.
Proof.
  apply (Save_exact_on_short_file fresh_file short_record). cbn. lia.
Defined.




Lemma not_retried_witness :
  notifications (events (tick publishes_def456)
                   (execState (tick publishes_def456) stored_abc123)) = []
  /\ posts (events (tick publishes_def456)
              (execState (tick publishes_def456) stored_abc123)) = []
  /\ arcdps (execState (tick publishes_def456)
               (execState (tick publishes_def456) stored_abc123))
     = {| Timestamp := jan_2006; CheckSum := "def456" |}.
Proof.
  apply (failed_notification_is_not_retried publishes_def456 stored_abc123 "def456"
           (snd (runState (GetChecksum publishes_def456) stored_abc123))
           jan_2006
           (snd (runState (GetVersion publishes_def456)
                   (snd (runState (GetChecksum publishes_def456) stored_abc123))))
           (snd (runState (GetChecksum publishes_def456)
                   (execState (tick publishes_def456) stored_abc123)))
           jan_2006
           (snd (runState (GetVersion publishes_def456)
                   (snd (runState (GetChecksum publishes_def456)
                           (execState (tick publishes_def456) stored_abc123))))));
    try reflexivity; discriminate.
Defined.

Lemma tick_stops_witness :
  (length (round_trips (events (tick checksum_500) stored_abc123)) <= 1)%nat.
Proof.
  exact (proj2 (tick_stops_after_failed_checksum checksum_500 stored_abc123
                  (fmt.Errorf "bad response from delta: (%s)"
                     [fmt.str "Internal Server Error"]) eq_refl)).
Defined.


(** ** [main] at its edges, run *)

Example main_without_webhook :
  main unconfigured (Ok "") abc123_network [ticker_C; ctx_Done]
  = Fatal "missing DISCORD_WEBHOOK env variable".
Proof. reflexivity. Qed.

Example main_permission_denied :
  main configured (Err (errors_New "open arcdps.yml: permission denied"))
    abc123_network [ticker_C; ctx_Done]
  = Fatal "err opening tracking file: open arcdps.yml: permission denied
".
Proof. reflexivity. Qed.

Example main_no_such_directory :
  main configured (Err (errors_New "open arcdps.yml: no such file or directory"))
    abc123_network [ticker_C; ctx_Done]
  = Panic.
Proof. reflexivity. Qed.

Example main_malformed_state :
  main configured (Ok "not a record") abc123_network [ticker_C; ctx_Done]
  = Fatal "unable to decode arcdps.yml: yaml: unmarshal errors".
Proof. reflexivity. Qed.

Example main_first_run :
  exists w,
    main configured (Ok "") abc123_network [ticker_C; ctx_Done]
    = Exit0 {| os.contents := demo_marshal jan_2006 "abc123"; os.offset := 50 |} w
    /\ notifications (trace w) = [].
Proof. eexists. split; reflexivity. Qed.
